(** * Pomodoro timer: persistence layer and timer state machine

    A shallow embedding of

    - [src/lib/storage.ts]: the localStorage-backed stores for preferences,
      timer configuration, session history and statistics, with the streak
      computation of [updateStatistics] and the backup functions
      [exportData] / [importData];
    - [src/components/features/Timer.tsx]: the React component that owns the
      phase / countdown state, its tick effect, [handlePhaseComplete],
      [startTimer], [pauseTimer], [resetTimer] and [handleSettingsChange].

    Conventions of the embedding.

    - Minutes (the three durations) are rationals [Q]; counters, seconds and
      millisecond time values are integers [Z].  [Math.round x] is
      [floor (x + 1/2)], [Math.max] is the maximum.  A product such as
      [duration * 60] is the exact one, where the code has the product of
      two doubles: the two agree whenever the product is a whole number,
      and nothing is stated about how far [Math.round] of it is from the
      exact product otherwise.
    - A [TimerConfig] holds four finite numbers.  [Runtime] has
      [saveTimerConfig] on the objects it can meet at run time, with
      properties that are missing, null, booleans, NaN or infinite.
    - A [Date] is its time value (milliseconds since the epoch, UTC).  The
      date part of [toISOString()] (the text before the 'T') is represented
      by the UTC day number of the time value, and an ISO time stamp by its
      time value; both renderings are injective.
    - The host time zone is an explicit parameter, given as ECMAScript's
      [LocalTZA(t, isUTC)].
    - The text held under a localStorage key is either text that [JSON.parse]
      rejects ([Text]) or the JSON document it denotes ([Doc]), read at the
      shape the key is used with; object fields may be absent.
    - The module is modelled in the browser ([isClient] is true) with a
      working localStorage.
    - Exceptions are explicit: a computation over the store returns a
      [result] together with the store it leaves behind. *)

From Stdlib Require Import ZArith QArith Qround Qminmax List String Bool Lia Lqa.
From Stdlib Require Import Ascii DecimalString.
Import ListNotations.

Local Open Scope Z_scope.

(* ------------------------------------------------------------------ *)
(** ** JavaScript primitives used by the sources *)

Module JS.

(** [Math.round] on a finite number. *)
Definition Math_round (x : Q) : Z := Qfloor (x + (1 # 2))%Q.

(** [a % b === 0] on integers: [%] is the truncated remainder, and it is
    [NaN] (never equal to 0) when the divisor is 0. *)
Definition rem_is_zero (a b : Z) : bool :=
  if b =? 0 then false else Z.rem a b =? 0.

Inductive exn := SyntaxError.

Inductive result (A : Type) :=
| Ok (a : A)
| Throw (e : exn).
Arguments Ok {A} a.
Arguments Throw {A} e.

(** *** Dates (ECMAScript, Date objects) *)

Definition msPerDay : Z := 86400000.

Definition Day (t : Z) : Z := t / msPerDay.
Definition TimeWithinDay (t : Z) : Z := t mod msPerDay.
Definition MakeDate (day time : Z) : Z := day * msPerDay + time.

(** The host time zone: [LocalTZA tz t true] is the offset of local time
    at the UTC instant [t]; [LocalTZA tz t false] the offset to use for the
    local time value [t]. *)
Record TimeZone := { LocalTZA : Z -> bool -> Z }.

Definition LocalTime (tz : TimeZone) (t : Z) : Z := t + LocalTZA tz t true.
Definition UTC (tz : TimeZone) (t : Z) : Z := t - LocalTZA tz t false.

(** A calendar date "YYYY-MM-DD", as its day number since 1970-01-01. *)
Definition IsoDate := Z.

(** [d.toISOString().split('T')[0]] *)
Definition toISODate (t : Z) : IsoDate := Day t.

(** [new Date(s)] for a date-only string [s]: midnight UTC of that day. *)
Definition parseISODate (d : IsoDate) : Z := MakeDate d 0.

(** [d.setDate(d.getDate() - 1)]: [getDate] and [setDate] work on the
    local time; [MakeDay(year, month, date - 1)] is the day before the
    local day, the time within the day is kept, and the result is
    converted back with [UTC]. *)
Definition setDate_previous (tz : TimeZone) (t : Z) : Z :=
  let lt := LocalTime tz t in
  UTC tz (MakeDate (Day lt - 1) (TimeWithinDay lt)).

(** A zone with a constant offset (no daylight saving). *)
Definition fixedZone (offset : Z) : TimeZone :=
  {| LocalTZA := fun _ _ => offset |}.

End JS.
Import JS.

(* ------------------------------------------------------------------ *)
(** ** Data model ([types/timer.ts] and the interfaces of storage.ts) *)

Inductive Phase := focus | break | longBreak.

Definition Phase_eqb (a b : Phase) : bool :=
  match a, b with
  | focus, focus | break, break | longBreak, longBreak => true
  | _, _ => false
  end.

Inductive Theme := light | dark | system.

Record TimerConfig := mkTimerConfig {
  focusDuration : Q;
  breakDuration : Q;
  longBreakDuration : Q;
  sessionsUntilLongBreak : Z
}.

Record TimerState := mkTimerState {
  isRunning : bool;
  isPaused : bool;
  currentPhase : Phase;
  timeRemaining : Z;
  completedSessions : Z
}.

Record UserPreferences := mkUserPreferences {
  theme : Theme;
  notifications : bool;
  sound : bool;
  autoStartBreaks : bool;
  autoStartPomodoros : bool
}.

(** [Omit<SessionData, 'id'>] and [SessionData]. *)
Record SessionInput := mkSessionInput {
  startTime : Z;
  endTime : Z;
  phase : Phase;
  completed : bool;
  duration : Z
}.

Record SessionData := mkSessionData {
  id : string;
  session_fields :> SessionInput
}.

Module Stats.
Record Statistics := mkStatistics {
  totalFocusTime : Z;
  totalBreakTime : Z;
  completedSessions : Z;
  dailyStreak : Z;
  lastSessionDate : option IsoDate
}.
End Stats.

(** Parsed JSON objects: the same fields, each possibly absent.  For the
    configuration an absent field also stands for [null] (the code reads
    the fields through [??], which treats both alike). *)
Module Json.
Record Preferences := mkPreferences {
  theme : option Theme;
  notifications : option bool;
  sound : option bool;
  autoStartBreaks : option bool;
  autoStartPomodoros : option bool
}.

Record Config := mkConfig {
  focusDuration : option Q;
  breakDuration : option Q;
  longBreakDuration : option Q;
  sessionsUntilLongBreak : option Z
}.

Record Statistics := mkStatistics {
  totalFocusTime : option Z;
  totalBreakTime : option Z;
  completedSessions : option Z;
  dailyStreak : option Z;
  lastSessionDate : option (option IsoDate)
}.

End Json.

(** [JSON.stringify] of an object with every field present. *)
Definition jsonOfPreferences (p : UserPreferences) : Json.Preferences :=
  Json.mkPreferences
    (Some (theme p)) (Some (notifications p)) (Some (sound p))
    (Some (autoStartBreaks p)) (Some (autoStartPomodoros p)).

Definition jsonOfConfig (c : TimerConfig) : Json.Config :=
  Json.mkConfig
    (Some (focusDuration c)) (Some (breakDuration c))
    (Some (longBreakDuration c)) (Some (sessionsUntilLongBreak c)).

Definition jsonOfStatistics (s : Stats.Statistics) : Json.Statistics :=
  Json.mkStatistics
    (Some (Stats.totalFocusTime s)) (Some (Stats.totalBreakTime s))
    (Some (Stats.completedSessions s)) (Some (Stats.dailyStreak s))
    (Some (Stats.lastSessionDate s)).

(* ------------------------------------------------------------------ *)
(** ** The persistence layer ([src/lib/storage.ts]) *)

Module Storage.

(** The text stored under a key. *)
Inductive Item (A : Type) :=
| Text (s : string)   (* text that is not JSON (possibly empty) *)
| Doc (a : A).        (* the JSON text of the document [a] *)
Arguments Text {A} s.
Arguments Doc {A} a.

Definition JSON_parse {A} (text : Item A) : result A :=
  match text with
  | Text _ => Throw SyntaxError
  | Doc a => Ok a
  end.

Definition JSON_stringify {A} (a : A) : Item A := Doc a.

(** [!value] for a [string | null]: null and the empty string are falsy. *)
Definition falsy {A} (value : option (Item A)) : bool :=
  match value with
  | None => true
  | Some (Text EmptyString) => true
  | Some _ => false
  end.

(** localStorage, restricted to the four keys of [STORAGE_KEYS]. *)
Record LocalStorage := mkLocalStorage {
  pomodoro_preferences : option (Item Json.Preferences);
  pomodoro_sessions : option (Item (list SessionData));
  pomodoro_statistics : option (Item Json.Statistics);
  pomodoro_config : option (Item Json.Config)
}.

Inductive STORAGE_KEYS : Type -> Type :=
| PREFERENCES : STORAGE_KEYS Json.Preferences
| SESSIONS : STORAGE_KEYS (list SessionData)
| STATISTICS : STORAGE_KEYS Json.Statistics
| TIMER_CONFIG : STORAGE_KEYS Json.Config.

Definition getItem {A} (key : STORAGE_KEYS A) (ls : LocalStorage)
  : option (Item A) :=
  match key in STORAGE_KEYS T return option (Item T) with
  | PREFERENCES => pomodoro_preferences ls
  | SESSIONS => pomodoro_sessions ls
  | STATISTICS => pomodoro_statistics ls
  | TIMER_CONFIG => pomodoro_config ls
  end.

Definition putItem {A} (key : STORAGE_KEYS A) (value : option (Item A))
  (ls : LocalStorage) : LocalStorage :=
  match key in STORAGE_KEYS T return option (Item T) -> LocalStorage with
  | PREFERENCES => fun v =>
      mkLocalStorage v (pomodoro_sessions ls) (pomodoro_statistics ls)
        (pomodoro_config ls)
  | SESSIONS => fun v =>
      mkLocalStorage (pomodoro_preferences ls) v (pomodoro_statistics ls)
        (pomodoro_config ls)
  | STATISTICS => fun v =>
      mkLocalStorage (pomodoro_preferences ls) (pomodoro_sessions ls) v
        (pomodoro_config ls)
  | TIMER_CONFIG => fun v =>
      mkLocalStorage (pomodoro_preferences ls) (pomodoro_sessions ls)
        (pomodoro_statistics ls) v
  end value.

Definition setItem {A} (key : STORAGE_KEYS A) (value : Item A) :=
  putItem key (Some value).
Definition removeItem {A} (key : STORAGE_KEYS A) :=
  putItem key None.

(** *** Computations over the store that may throw *)

Definition M (A : Type) : Type := LocalStorage -> result A * LocalStorage.

Definition ret {A} (a : A) : M A := fun ls => (Ok a, ls).

Definition bind {A B} (m : M A) (k : A -> M B) : M B :=
  fun ls =>
    match m ls with
    | (Ok a, ls') => k a ls'
    | (Throw e, ls') => (Throw e, ls')
    end.

Definition throwing {A} (r : result A) : M A := fun ls => (r, ls).

Declare Scope js_scope.
Delimit Scope js_scope with js.
Notation "x <- m ;; k" := (bind m (fun x => k))
  (at level 61, m at next level, right associativity) : js_scope.
Notation "m ;; k" := (bind m (fun _ => k))
  (at level 61, right associativity) : js_scope.
Local Open Scope js_scope.

Definition when (b : bool) (m : M unit) : M unit :=
  if b then m else ret tt.

(** [safeLocalStorage] *)
Definition safe_getItem {A} (key : STORAGE_KEYS A) : M (option (Item A)) :=
  fun ls => (Ok (getItem key ls), ls).
Definition safe_setItem {A} (key : STORAGE_KEYS A) (value : Item A) : M unit :=
  fun ls => (Ok tt, setItem key value ls).
Definition safe_removeItem {A} (key : STORAGE_KEYS A) : M unit :=
  fun ls => (Ok tt, removeItem key ls).

(** *** Default values *)

Definition DEFAULT_PREFERENCES : UserPreferences :=
  {| theme := system;
     notifications := true;
     sound := true;
     autoStartBreaks := true;
     autoStartPomodoros := false |}.

Definition DEFAULT_CONFIG : TimerConfig :=
  {| focusDuration := 2 # 10;         (* 0.2: 12 seconds *)
     breakDuration := 1 # 10;         (* 0.1: 6 seconds *)
     longBreakDuration := 15 # 100;   (* 0.15: 9 seconds *)
     sessionsUntilLongBreak := 4 |}.

Definition DEFAULT_STATISTICS : Stats.Statistics :=
  {| Stats.totalFocusTime := 0;
     Stats.totalBreakTime := 0;
     Stats.completedSessions := 0;
     Stats.dailyStreak := 0;
     Stats.lastSessionDate := None |}.

(** [field ?? d], and the field of [{...defaults, ...parsed}]. *)
Definition orDefault {A} (field : option A) (d : A) : A :=
  match field with
  | Some a => a
  | None => d
  end.

(** [{ ...DEFAULT_PREFERENCES, ...parsedPreferences }] *)
Definition mergePreferences (p : Json.Preferences) : UserPreferences :=
  {| theme := orDefault (Json.theme p) (theme DEFAULT_PREFERENCES);
     notifications :=
       orDefault (Json.notifications p) (notifications DEFAULT_PREFERENCES);
     sound := orDefault (Json.sound p) (sound DEFAULT_PREFERENCES);
     autoStartBreaks :=
       orDefault (Json.autoStartBreaks p) (autoStartBreaks DEFAULT_PREFERENCES);
     autoStartPomodoros :=
       orDefault (Json.autoStartPomodoros p)
         (autoStartPomodoros DEFAULT_PREFERENCES) |}.

(** [{ ...DEFAULT_STATISTICS, ...parsedStats }] *)
Definition mergeStatistics (s : Json.Statistics) : Stats.Statistics :=
  {| Stats.totalFocusTime :=
       orDefault (Json.totalFocusTime s) (Stats.totalFocusTime DEFAULT_STATISTICS);
     Stats.totalBreakTime :=
       orDefault (Json.totalBreakTime s) (Stats.totalBreakTime DEFAULT_STATISTICS);
     Stats.completedSessions :=
       orDefault (Json.completedSessions s)
         (Stats.completedSessions DEFAULT_STATISTICS);
     Stats.dailyStreak :=
       orDefault (Json.dailyStreak s) (Stats.dailyStreak DEFAULT_STATISTICS);
     Stats.lastSessionDate :=
       orDefault (Json.lastSessionDate s)
         (Stats.lastSessionDate DEFAULT_STATISTICS) |}.

(** *** The operations *)

Definition initializeStorage : M unit :=
  p <- safe_getItem PREFERENCES ;;
  when (falsy p)
    (safe_setItem PREFERENCES
       (JSON_stringify (jsonOfPreferences DEFAULT_PREFERENCES))) ;;
  c <- safe_getItem TIMER_CONFIG ;;
  when (falsy c)
    (safe_setItem TIMER_CONFIG (JSON_stringify (jsonOfConfig DEFAULT_CONFIG))) ;;
  s <- safe_getItem SESSIONS ;;
  when (falsy s) (safe_setItem SESSIONS (JSON_stringify [])) ;;
  st <- safe_getItem STATISTICS ;;
  when (falsy st)
    (safe_setItem STATISTICS
       (JSON_stringify (jsonOfStatistics DEFAULT_STATISTICS))).

Definition getPreferences : M UserPreferences :=
  initializeStorage ;;
  preferences <- safe_getItem PREFERENCES ;;
  match preferences with
  | None | Some (Text EmptyString) => ret DEFAULT_PREFERENCES
  | Some text =>
      parsedPreferences <- throwing (JSON_parse text) ;;
      ret (mergePreferences parsedPreferences)
  end.

Definition savePreferences (preferences : Json.Preferences) : M unit :=
  let validatedPreferences := mergePreferences preferences in
  safe_setItem PREFERENCES
    (JSON_stringify (jsonOfPreferences validatedPreferences)).

(** The object literal returned by [getTimerConfig]. *)
Definition clampedConfig (parsedConfig : Json.Config) : TimerConfig :=
  {| focusDuration :=
       Qmax (1 # 10)
         (orDefault (Json.focusDuration parsedConfig)
            (focusDuration DEFAULT_CONFIG));
     breakDuration :=
       Qmax (1 # 10)
         (orDefault (Json.breakDuration parsedConfig)
            (breakDuration DEFAULT_CONFIG));
     longBreakDuration :=
       Qmax (1 # 10)
         (orDefault (Json.longBreakDuration parsedConfig)
            (longBreakDuration DEFAULT_CONFIG));
     sessionsUntilLongBreak :=
       Z.max 1
         (orDefault (Json.sessionsUntilLongBreak parsedConfig)
            (sessionsUntilLongBreak DEFAULT_CONFIG)) |}.

Definition getTimerConfig : M TimerConfig :=
  initializeStorage ;;
  config <- safe_getItem TIMER_CONFIG ;;
  match config with
  | None | Some (Text EmptyString) => ret DEFAULT_CONFIG
  | Some text =>
      parsedConfig <- throwing (JSON_parse text) ;;
      ret (clampedConfig parsedConfig)
  end.

(** The object [validatedConfig] built by [saveTimerConfig]. *)
Definition validatedConfig (config : TimerConfig) : TimerConfig :=
  {| focusDuration := Qmax (1 # 10) (focusDuration config);
     breakDuration := Qmax (1 # 10) (breakDuration config);
     longBreakDuration := Qmax (1 # 10) (longBreakDuration config);
     sessionsUntilLongBreak := Z.max 1 (sessionsUntilLongBreak config) |}.

Definition saveTimerConfig (config : TimerConfig) : M unit :=
  safe_setItem TIMER_CONFIG
    (JSON_stringify (jsonOfConfig (validatedConfig config))).

Definition getSessions : M (list SessionData) :=
  initializeStorage ;;
  sessions <- safe_getItem SESSIONS ;;
  match sessions with
  | None | Some (Text EmptyString) => ret []
  | Some text => throwing (JSON_parse text)
  end.

Definition getStatistics : M Stats.Statistics :=
  initializeStorage ;;
  stats <- safe_getItem STATISTICS ;;
  match stats with
  | None | Some (Text EmptyString) => ret DEFAULT_STATISTICS
  | Some text =>
      parsedStats <- throwing (JSON_parse text) ;;
      ret (mergeStatistics parsedStats)
  end.

(** The streak branch of [updateStatistics]: the new [dailyStreak]. *)
Definition updateStreak (tz : TimeZone) (now : Z) (stats : Stats.Statistics)
  : Z :=
  let today := toISODate now in
  match Stats.lastSessionDate stats with
  | Some lastSessionDate =>
      let lastDate := parseISODate lastSessionDate in
      let yesterday := setDate_previous tz now in
      if today =? lastSessionDate then
        Stats.dailyStreak stats                 (* same day, no change *)
      else if toISODate lastDate =? toISODate yesterday then
        Stats.dailyStreak stats + 1             (* consecutive day *)
      else
        1                                       (* streak broken *)
  | None => 1                                   (* first session ever *)
  end.

(** [updateStatistics]; [now] is the reading of the clock ([new Date()]). *)
Definition updateStatistics (tz : TimeZone) (now : Z) (session : SessionInput)
  : M unit :=
  stats <- getStatistics ;;
  let today := toISODate now in
  let isFocus := Phase_eqb (phase session) focus in
  safe_setItem STATISTICS
    (JSON_stringify (jsonOfStatistics
       {| Stats.totalFocusTime :=
            if isFocus then Stats.totalFocusTime stats + duration session
            else Stats.totalFocusTime stats;
          Stats.totalBreakTime :=
            if isFocus then Stats.totalBreakTime stats
            else Stats.totalBreakTime stats + duration session;
          Stats.completedSessions :=
            if completed session then Stats.completedSessions stats + 1
            else Stats.completedSessions stats;
          Stats.dailyStreak := updateStreak tz now stats;
          Stats.lastSessionDate := Some today |})).

(** [saveSession]; [uuid] is the value of [crypto.randomUUID()]. *)
Definition saveSession (tz : TimeZone) (now : Z) (uuid : string)
  (session : SessionInput) : M unit :=
  sessions <- getSessions ;;
  let newSession := {| id := uuid; session_fields := session |} in
  safe_setItem SESSIONS (JSON_stringify (sessions ++ [newSession])) ;;
  updateStatistics tz now session.

Definition clearAllData : M unit :=
  safe_removeItem PREFERENCES ;;
  safe_removeItem SESSIONS ;;
  safe_removeItem STATISTICS ;;
  safe_removeItem TIMER_CONFIG ;;
  initializeStorage.

(** The object serialised by [exportData] and read by [importData];
    the [timerConfig] section is taken at the parameter type of
    [saveTimerConfig]. *)
Record Backup := mkBackup {
  preferences : option Json.Preferences;
  timerConfig : option TimerConfig;
  sessions : option (list SessionData);
  statistics : option Json.Statistics
}.

Definition exportData : M (Item Backup) :=
  p <- getPreferences ;;
  c <- getTimerConfig ;;
  s <- getSessions ;;
  st <- getStatistics ;;
  ret (JSON_stringify
         {| preferences := Some (jsonOfPreferences p);
            timerConfig := Some c;
            sessions := Some s;
            statistics := Some (jsonOfStatistics st) |}).

Definition importData (jsonData : Item Backup) : M bool :=
  match JSON_parse jsonData with
  | Throw _ => ret false                        (* caught, logged *)
  | Ok data =>
      match preferences data with
      | Some p => savePreferences p
      | None => ret tt
      end ;;
      match timerConfig data with
      | Some c => saveTimerConfig c
      | None => ret tt
      end ;;
      match sessions data with
      | Some s => safe_setItem SESSIONS (JSON_stringify s)
      | None => ret tt
      end ;;
      match statistics data with
      | Some st => safe_setItem STATISTICS (JSON_stringify st)
      | None => ret tt
      end ;;
      ret true
  end.

End Storage.

(* ------------------------------------------------------------------ *)
(** ** [saveTimerConfig] on values as they are at run time

    TypeScript's types are erased at run time: the object that
    [saveTimerConfig] receives (from [importData], which hands over
    [data.timerConfig] as parsed) may lack a property, and a property
    typed [number] may hold NaN or an infinity.  [Storage.saveTimerConfig]
    above is the function on objects whose four properties are finite
    numbers; this is the same function on objects whose properties are
    undefined, null, a boolean or any number.  Strings and objects as
    property values are left out: [ToNumber] of those needs the grammar
    of numeric strings.  A finite [sessionsUntilLongBreak] is an integer,
    as in [TimerConfig]. *)

Module Runtime.
Import Storage.

(** A JavaScript number. *)
Inductive number (A : Type) : Type :=
| Finite (a : A)
| NaN
| Infinity
| NegInfinity.
Arguments Finite {A} a.
Arguments NaN {A}.
Arguments Infinity {A}.
Arguments NegInfinity {A}.

(** The value of a property; [Undefined] when the object has none. *)
Inductive Value (A : Type) : Type :=
| Undefined
| Null
| Boolean (b : bool)
| Number (n : number A).
Arguments Undefined {A}.
Arguments Null {A}.
Arguments Boolean {A} b.
Arguments Number {A} n.

(** [ToNumber], applied by [Math.max] to each argument. *)
Definition ToNumber {A} (ofZ : Z -> A) (v : Value A) : number A :=
  match v with
  | Undefined => NaN
  | Null => Finite (ofZ 0)
  | Boolean true => Finite (ofZ 1)
  | Boolean false => Finite (ofZ 0)
  | Number n => n
  end.

(** [Math.max(a, b)]: NaN as soon as one argument is NaN. *)
Definition Math_max {A} (max : A -> A -> A) (a b : number A) : number A :=
  match a, b with
  | NaN, _ | _, NaN => NaN
  | Infinity, _ | _, Infinity => Infinity
  | NegInfinity, n | n, NegInfinity => n
  | Finite x, Finite y => Finite (max x y)
  end.

(** [JSON.stringify] of a number property: NaN and the infinities are
    written as [null]. *)
Definition JSON_number {A} (n : number A) : option A :=
  match n with
  | Finite a => Some a
  | NaN | Infinity | NegInfinity => None
  end.

(** The argument of [saveTimerConfig]. *)
Record TimerConfig := mkTimerConfig {
  focusDuration : Value Q;
  breakDuration : Value Q;
  longBreakDuration : Value Q;
  sessionsUntilLongBreak : Value Z
}.

(** The object literal [validatedConfig]. *)
Record Validated := mkValidated {
  validFocusDuration : number Q;
  validBreakDuration : number Q;
  validLongBreakDuration : number Q;
  validSessionsUntilLongBreak : number Z
}.

Definition validatedConfig (config : TimerConfig) : Validated :=
  {| validFocusDuration :=
       Math_max Qmax (Finite (1 # 10)) (ToNumber inject_Z (focusDuration config));
     validBreakDuration :=
       Math_max Qmax (Finite (1 # 10)) (ToNumber inject_Z (breakDuration config));
     validLongBreakDuration :=
       Math_max Qmax (Finite (1 # 10))
         (ToNumber inject_Z (longBreakDuration config));
     validSessionsUntilLongBreak :=
       Math_max Z.max (Finite 1)
         (ToNumber (fun z => z) (sessionsUntilLongBreak config)) |}.

(** [JSON.stringify(validatedConfig)] *)
Definition jsonOfValidated (v : Validated) : Json.Config :=
  Json.mkConfig
    (JSON_number (validFocusDuration v)) (JSON_number (validBreakDuration v))
    (JSON_number (validLongBreakDuration v))
    (JSON_number (validSessionsUntilLongBreak v)).

Definition saveTimerConfig (config : TimerConfig) : M unit :=
  safe_setItem TIMER_CONFIG
    (JSON_stringify (jsonOfValidated (validatedConfig config))).

End Runtime.

(** The object whose four properties are the numbers of [c]. *)
Definition runtimeConfig (c : TimerConfig) : Runtime.TimerConfig :=
  Runtime.mkTimerConfig
    (Runtime.Number (Runtime.Finite (focusDuration c)))
    (Runtime.Number (Runtime.Finite (breakDuration c)))
    (Runtime.Number (Runtime.Finite (longBreakDuration c)))
    (Runtime.Number (Runtime.Finite (sessionsUntilLongBreak c))).

(* ------------------------------------------------------------------ *)
(** ** The timer component ([src/components/features/Timer.tsx])

    The component state is the tuple of its [useState] cells (the sound
    subsystem and the settings dialog, which the countdown never reads, are
    left out), together with the callbacks handed to [setTimeout] that have
    not run yet.  Every handler is created anew on each render, so a handler
    runs with the state of the latest render.  A pending callback is the
    closure it was created with: the values of [nextPhase],
    [nextSessionCount], [state.currentPhase] and [config] of the render in
    which the handler ran; its functional [setState] update applies to the
    state at the time the callback runs. *)

Module Timer.
Import Storage.
Local Open Scope js_scope.

Inductive Timeout :=
| PhaseTimeout (nextPhase : Phase) (nextSessionCount : Z) (config : TimerConfig)
| ResetTimeout (phase : Phase) (config : TimerConfig).

Record Component := mkComponent {
  config : TimerConfig;
  stats : Stats.Statistics;
  state : TimerState;
  isTransitioning : bool;
  isMuted : bool;
  sessionStartTime : option Z;
  timeouts : list Timeout
}.

Definition setState (f : TimerState -> TimerState) (t : Component) : Component :=
  mkComponent (config t) (stats t) (f (state t)) (isTransitioning t)
    (isMuted t) (sessionStartTime t) (timeouts t).
Definition setConfig (c : TimerConfig) (t : Component) : Component :=
  mkComponent c (stats t) (state t) (isTransitioning t)
    (isMuted t) (sessionStartTime t) (timeouts t).
Definition setStats (s : Stats.Statistics) (t : Component) : Component :=
  mkComponent (config t) s (state t) (isTransitioning t)
    (isMuted t) (sessionStartTime t) (timeouts t).
Definition setIsTransitioning (b : bool) (t : Component) : Component :=
  mkComponent (config t) (stats t) (state t) b
    (isMuted t) (sessionStartTime t) (timeouts t).
Definition setIsMuted (b : bool) (t : Component) : Component :=
  mkComponent (config t) (stats t) (state t) (isTransitioning t)
    b (sessionStartTime t) (timeouts t).
Definition setSessionStartTime (s : option Z) (t : Component) : Component :=
  mkComponent (config t) (stats t) (state t) (isTransitioning t)
    (isMuted t) s (timeouts t).
Definition setTimeout (cb : Timeout) (t : Component) : Component :=
  mkComponent (config t) (stats t) (state t) (isTransitioning t)
    (isMuted t) (sessionStartTime t) (timeouts t ++ [cb]).
Definition clearTimeoutAt (i : nat) (t : Component) : Component :=
  mkComponent (config t) (stats t) (state t) (isTransitioning t)
    (isMuted t) (sessionStartTime t)
    (firstn i (timeouts t) ++ skipn (S i) (timeouts t)).

(** [getCurrentPhaseDuration(phase)] *)
Definition getCurrentPhaseDuration (config : TimerConfig) (phase : Phase) : Q :=
  match phase with
  | focus => focusDuration config
  | break => breakDuration config
  | longBreak => longBreakDuration config
  end.

(** [Math.round(getCurrentPhaseDuration(phase) * 60)] *)
Definition phaseSeconds (config : TimerConfig) (phase : Phase) : Z :=
  Math_round (getCurrentPhaseDuration config phase * 60)%Q.

(** The initial render ([useState] initialisers) followed by the mount
    effect. *)
Definition mount : M Component :=
  config0 <- getTimerConfig ;;
  stats0 <- getStatistics ;;
  savedConfig <- getTimerConfig ;;
  currentStats <- getStatistics ;;
  let state0 :=
    {| isRunning := false;
       isPaused := false;
       currentPhase := focus;
       timeRemaining := Math_round (focusDuration savedConfig * 60)%Q;
       completedSessions := Stats.completedSessions currentStats |} in
  preferences0 <- getPreferences ;;
  savedConfig <- getTimerConfig ;;
  preferences <- getPreferences ;;
  currentStats <- getStatistics ;;
  ret {| config := savedConfig;
         stats := currentStats;
         state :=
           mkTimerState (isRunning state0) (isPaused state0)
             (currentPhase state0)
             (Math_round (focusDuration savedConfig * 60)%Q)
             (Stats.completedSessions currentStats);
         isTransitioning := false;
         isMuted := negb (sound preferences);
         sessionStartTime := None;
         timeouts := [] |}.

(** [saveCompletedSession] *)
Definition saveCompletedSession (tz : TimeZone) (now : Z) (uuid : string)
  (t : Component) : M Component :=
  match sessionStartTime t with
  | None => ret t
  | Some start =>
      let session :=
        {| startTime := start;
           endTime := now;
           phase := currentPhase (state t);
           completed := true;
           duration := phaseSeconds (config t) (currentPhase (state t)) |} in
      saveSession tz now uuid session ;;
      updatedStats <- getStatistics ;;
      ret (setState
             (fun prev =>
                mkTimerState (isRunning prev) (isPaused prev)
                  (currentPhase prev) (timeRemaining prev)
                  (Stats.completedSessions updatedStats))
             (setStats updatedStats t))
  end.

(** The two values computed by [handlePhaseComplete] from the state of
    the current render. *)
Definition nextPhase (state : TimerState) (config : TimerConfig) : Phase :=
  match currentPhase state with
  | focus =>
      if rem_is_zero (completedSessions state + 1)
           (sessionsUntilLongBreak config)
      then longBreak
      else break
  | _ => focus
  end.

Definition nextSessionCount (state : TimerState) : Z :=
  match currentPhase state with
  | focus => completedSessions state + 1
  | _ => completedSessions state
  end.

(** [handlePhaseComplete], up to the call of [setTimeout]. *)
Definition handlePhaseComplete (tz : TimeZone) (now : Z) (uuid : string)
  (t : Component) : M Component :=
  t' <- saveCompletedSession tz now uuid (setIsTransitioning true t) ;;
  ret (setTimeout
         (PhaseTimeout (nextPhase (state t) (config t))
            (nextSessionCount (state t)) (config t))
         t').

(** The callback of [handlePhaseComplete], run 500 ms later. *)
Definition phaseTimeout (now : Z) (next : Phase) (count : Z)
  (config : TimerConfig) (t : Component) : Component :=
  let t1 :=
    setState
      (fun prev =>
         {| isRunning := negb (Phase_eqb next focus);   (* auto-start breaks *)
            isPaused := isPaused prev;
            currentPhase := next;
            timeRemaining := phaseSeconds config next;
            completedSessions := count |})
      t in
  let t2 := setIsTransitioning false t1 in
  if negb (Phase_eqb next focus)
  then setSessionStartTime (Some now) t2
  else t2.

Definition startTimer (now : Z) (t : Component) : Component :=
  setState
    (fun prev =>
       mkTimerState true false (currentPhase prev) (timeRemaining prev)
         (completedSessions prev))
    (setSessionStartTime (Some now) t).

Definition pauseTimer (t : Component) : Component :=
  setState
    (fun prev =>
       mkTimerState (isRunning prev) true (currentPhase prev)
         (timeRemaining prev) (completedSessions prev))
    t.

(** [resetTimer], up to the call of [setTimeout]. *)
Definition resetTimer (t : Component) : Component :=
  setTimeout (ResetTimeout (currentPhase (state t)) (config t))
    (setSessionStartTime None (setIsTransitioning true t)).

(** The callback of [resetTimer], run 300 ms later. *)
Definition resetTimeout (phase : Phase) (config : TimerConfig)
  (t : Component) : Component :=
  setIsTransitioning false
    (setState
       (fun prev =>
          {| isRunning := false;
             isPaused := false;
             currentPhase := currentPhase prev;
             timeRemaining := phaseSeconds config phase;
             completedSessions := completedSessions prev |})
       t).

(** The tick effect: the interval exists only while the guard holds. *)
Definition tickEnabled (t : Component) : bool :=
  isRunning (state t) && negb (isPaused (state t)) && negb (isTransitioning t).

Definition tick (tz : TimeZone) (now : Z) (uuid : string) (t : Component)
  : M Component :=
  if tickEnabled t then
    if timeRemaining (state t) <=? 0 then
      handlePhaseComplete tz now uuid t
    else
      ret (setState
             (fun prev =>
                mkTimerState (isRunning prev) (isPaused prev)
                  (currentPhase prev) (timeRemaining prev - 1)
                  (completedSessions prev))
             t)
  else ret t.

Definition handleMuteToggle (t : Component) : M Component :=
  let newMutedState := negb (isMuted t) in
  preferences <- getPreferences ;;
  savePreferences
    (jsonOfPreferences
       (mkUserPreferences (theme preferences) (notifications preferences)
          (negb newMutedState)
          (autoStartBreaks preferences) (autoStartPomodoros preferences))) ;;
  ret (setIsMuted newMutedState t).

Definition handleSettingsChange (t : Component) : M Component :=
  newConfig <- getTimerConfig ;;
  preferences <- getPreferences ;;
  let t1 := setIsMuted (negb (sound preferences)) (setConfig newConfig t) in
  ret (if negb (isRunning (state t)) then
         setState
           (fun prev =>
              mkTimerState (isRunning prev) (isPaused prev)
                (currentPhase prev)
                (Math_round (focusDuration newConfig * 60)%Q)
                (completedSessions prev))
           t1
       else t1).

(** Everything that can happen to a mounted timer: the interval firing,
    the three buttons, a pending [setTimeout] callback running, the mute
    button, and the settings panel saving a configuration or preferences
    and then calling [onSettingsChange]. *)
Inductive Command :=
| Tick (now : Z) (uuid : string)
| Start (now : Z)
| Pause
| Reset
| RunTimeout (i : nat) (now : Z)
| MuteToggle
| SettingsChange
| PanelSaveConfig (c : TimerConfig)
| PanelSavePreferences (p : UserPreferences).

Definition runTimeout (i : nat) (now : Z) (t : Component) : Component :=
  match nth_error (timeouts t) i with
  | None => t
  | Some (PhaseTimeout next count cfg) =>
      phaseTimeout now next count cfg (clearTimeoutAt i t)
  | Some (ResetTimeout ph cfg) =>
      resetTimeout ph cfg (clearTimeoutAt i t)
  end.

Definition step (tz : TimeZone) (c : Command) (t : Component) : M Component :=
  match c with
  | Tick now uuid => tick tz now uuid t
  | Start now => ret (startTimer now t)
  | Pause => ret (pauseTimer t)
  | Reset => ret (resetTimer t)
  | RunTimeout i now => ret (runTimeout i now t)
  | MuteToggle => handleMuteToggle t
  | SettingsChange => handleSettingsChange t
  | PanelSaveConfig c => saveTimerConfig c ;; handleSettingsChange t
  | PanelSavePreferences p =>
      savePreferences (jsonOfPreferences p) ;; handleSettingsChange t
  end.

Fixpoint run (tz : TimeZone) (cs : list Command) (t : Component) : M Component :=
  match cs with
  | [] => ret t
  | c :: cs' => t' <- step tz c t ;; run tz cs' t'
  end.

(** A mounted timer driven by a sequence of commands. *)
Definition session (tz : TimeZone) (cs : list Command) : M Component :=
  t <- mount ;; run tz cs t.

(** *** What the component displays *)

(** [n.toString()] for an integer [n], and [s.padStart(n, c)]. *)
Definition toString (n : Z) : string := NilZero.string_of_int (Z.to_int n).

Fixpoint repeatChar (n : nat) (c : ascii) : string :=
  match n with
  | O => EmptyString
  | S n' => String c (repeatChar n' c)
  end.

Definition padStart (targetLength : nat) (padChar : ascii) (s : string)
  : string :=
  (repeatChar (targetLength - String.length s) padChar ++ s)%string.

(** [formatTime]: [Math.floor(seconds / 60)] and [seconds % 60], each padded
    to two characters. *)
Definition formatTime (seconds : Z) : string :=
  let mins := seconds / 60 in
  let secs := Z.rem seconds 60 in
  (padStart 2 "0" (toString mins) ++ ":" ++ padStart 2 "0" (toString secs))%string.

(** [formatDuration] *)
Definition formatDuration (seconds : Z) : string :=
  let hours := seconds / 3600 in
  let minutes := Z.rem seconds 3600 / 60 in
  if 0 <? hours
  then (toString hours ++ "h " ++ toString minutes ++ "m")%string
  else (toString minutes ++ "m")%string.

(** [getProgress]; the quotient is a rational here, and the code is only
    modelled for a phase of at least one second ([totalSeconds] is never 0
    for a configuration read from the store). *)
Definition getProgress (t : Component) : Q :=
  let totalSeconds := phaseSeconds (config t) (currentPhase (state t)) in
  let progress :=
    (inject_Z (totalSeconds - timeRemaining (state t)) / inject_Z totalSeconds
     * 100)%Q in
  Qmin (Qmax progress 0) 100.

(** The first button of the component: "Start" with [startTimer] while the
    timer is not running, otherwise "Pause" or "Resume", both with
    [pauseTimer]. *)
Definition primaryButtonLabel (t : Component) : string :=
  if negb (isRunning (state t)) then "Start"
  else if isPaused (state t) then "Resume" else "Pause".

Definition primaryButtonClick (now : Z) (t : Component) : Component :=
  if negb (isRunning (state t)) then startTimer now t else pauseTimer t.

End Timer.

(* ------------------------------------------------------------------ *)
(** ** Auxiliary definitions for the statements below *)

Import Storage.

(** What [initializeStorage] leaves under a key that held [v]. *)
Definition initSlot {A} (d : A) (v : option (Item A)) : option (Item A) :=
  if falsy v then Some (Doc d) else v.

Definition initialized (ls : LocalStorage) : LocalStorage :=
  {| pomodoro_preferences :=
       initSlot (jsonOfPreferences DEFAULT_PREFERENCES) (pomodoro_preferences ls);
     pomodoro_sessions := initSlot [] (pomodoro_sessions ls);
     pomodoro_statistics :=
       initSlot (jsonOfStatistics DEFAULT_STATISTICS) (pomodoro_statistics ls);
     pomodoro_config :=
       initSlot (jsonOfConfig DEFAULT_CONFIG) (pomodoro_config ls) |}.

(** The text under a key is absent, empty, or the JSON text of a document:
    [JSON.parse] is never handed text it rejects. *)
Definition parses {A} (v : option (Item A)) : bool :=
  match v with
  | Some (Text (String _ _)) => false
  | _ => true
  end.

Definition wellFormed (ls : LocalStorage) : Prop :=
  parses (pomodoro_preferences ls) = true /\
  parses (pomodoro_sessions ls) = true /\
  parses (pomodoro_statistics ls) = true /\
  parses (pomodoro_config ls) = true.

(** The clamping invariant of a [TimerConfig]. *)
Definition validConfig (c : TimerConfig) : Prop :=
  (0 < focusDuration c)%Q /\
  (0 < breakDuration c)%Q /\
  (0 < longBreakDuration c)%Q /\
  1 <= sessionsUntilLongBreak c.

(** Concrete stores. *)
Definition emptyStorage : LocalStorage := mkLocalStorage None None None None.

Definition corruptStorage : LocalStorage :=
  mkLocalStorage (Some (Text "{oops")) (Some (Text "[1,"))
    (Some (Text "not json")) (Some (Text "{")).

(** A store whose configuration document is
    [{"focusDuration": -5, "breakDuration": 0, "sessionsUntilLongBreak": 0}]. *)
Definition outOfRangeConfig : Json.Config :=
  Json.mkConfig (Some (-5 # 1)) (Some 0%Q) None (Some 0).

Definition outOfRangeStorage : LocalStorage :=
  mkLocalStorage None None None (Some (Doc outOfRangeConfig)).

(** The reading of section 4.1 of the specification for [get]: a duration
    that is missing or not positive is replaced by the default, and the
    result is clamped to at least 0.1. *)
Module Spec.
Definition replaceByDefault (field : option Q) (d : Q) : Q :=
  match field with
  | Some v => if Qle_bool v 0 then d else v
  | None => d
  end.

Definition clampedDuration (field : option Q) (d : Q) : Q :=
  Qmax (1 # 10) (replaceByDefault field d).
End Spec.

(** What each reader answers, by the text found under its key. *)
Definition readPreferences (v : option (Item Json.Preferences))
  : result UserPreferences :=
  match v with
  | None | Some (Text EmptyString) => Ok DEFAULT_PREFERENCES
  | Some (Text _) => Throw SyntaxError
  | Some (Doc p) => Ok (mergePreferences p)
  end.

Definition readConfig (v : option (Item Json.Config)) : result TimerConfig :=
  match v with
  | None | Some (Text EmptyString) => Ok DEFAULT_CONFIG
  | Some (Text _) => Throw SyntaxError
  | Some (Doc c) => Ok (clampedConfig c)
  end.

Definition readSessions (v : option (Item (list SessionData)))
  : result (list SessionData) :=
  match v with
  | None | Some (Text EmptyString) => Ok []
  | Some (Text _) => Throw SyntaxError
  | Some (Doc l) => Ok l
  end.

Definition readStatistics (v : option (Item Json.Statistics))
  : result Stats.Statistics :=
  match v with
  | None | Some (Text EmptyString) => Ok DEFAULT_STATISTICS
  | Some (Text _) => Throw SyntaxError
  | Some (Doc st) => Ok (mergeStatistics st)
  end.

(** [r] is the duration [v] raised to at least 0.1: 0.1 when [v] is at
    most 0.1 (zero and negative values included), [v] itself otherwise. *)
Definition raisedToTenth (v r : Q) : Prop :=
  ((v <= 1 # 10)%Q -> r = (1 # 10)%Q) /\ ((1 # 10 < v)%Q -> r = v).

(** How a duration read from the store relates to the persisted field:
    a missing field gives the default [d]; a present one is raised to at
    least 0.1. *)
Definition durationRead (field : option Q) (d r : Q) : Prop :=
  match field with
  | None => r = d
  | Some v => raisedToTenth v r
  end.

(** A store in which only the statistics key holds text that is not JSON. *)
Definition corruptStatisticsStorage : LocalStorage :=
  mkLocalStorage None None (Some (Text "not json")) None.

(** The time zone Europe/London during 2024: UTC+1 from 2024-03-31T01:00Z
    (1711846800000) to 2024-10-27T01:00Z (1729990800000), UTC+0 otherwise.
    For a local time value the summer offset applies from 02:00 local time
    on 31 March (1711850400000) up to 02:00 local time on 27 October
    (1729994400000); skipped and repeated local times take the offset in
    force before the transition. *)
Definition europeLondon : TimeZone :=
  {| LocalTZA := fun t isUTC =>
       if isUTC then
         if (1711846800000 <=? t) && (t <? 1729990800000) then 3600000 else 0
       else
         if (1711850400000 <=? t) && (t <? 1729994400000) then 3600000 else 0 |}.

(** The instant 2024-10-28T00:30:00.000Z (00:30 in London as well), and
    the calendar date 2024-10-27, the day the clocks went back. *)
Definition mondayNight : Z := 1730075400000.
Definition sunday : IsoDate := 20023.

(** Statistics after a session on Sunday 2024-10-27, streak 5. *)
Definition sundayStatistics : Stats.Statistics :=
  {| Stats.totalFocusTime := 7500;
     Stats.totalBreakTime := 1200;
     Stats.completedSessions := 9;
     Stats.dailyStreak := 5;
     Stats.lastSessionDate := Some sunday |}.

Definition sundayStorage : LocalStorage :=
  mkLocalStorage None None (Some (Doc (jsonOfStatistics sundayStatistics))) None.

Definition mondaySession : SessionInput :=
  {| startTime := 1730073900000;
     endTime := mondayNight;
     phase := focus;
     completed := true;
     duration := 1500 |}.

(** The statistics object that [updateStatistics] persists. *)
Definition updatedStatistics (tz : TimeZone) (now : Z) (session : SessionInput)
  (stats : Stats.Statistics) : Stats.Statistics :=
  {| Stats.totalFocusTime :=
       if Phase_eqb (phase session) focus
       then Stats.totalFocusTime stats + duration session
       else Stats.totalFocusTime stats;
     Stats.totalBreakTime :=
       if Phase_eqb (phase session) focus
       then Stats.totalBreakTime stats
       else Stats.totalBreakTime stats + duration session;
     Stats.completedSessions :=
       if completed session then Stats.completedSessions stats + 1
       else Stats.completedSessions stats;
     Stats.dailyStreak := updateStreak tz now stats;
     Stats.lastSessionDate := Some (toISODate now) |}.

(** A pending callback closes over a configuration that came from
    [getTimerConfig]. *)
Definition timeoutConfig (cb : Timer.Timeout) : TimerConfig :=
  match cb with
  | Timer.PhaseTimeout _ _ c => c
  | Timer.ResetTimeout _ c => c
  end.

(** The invariant of a mounted timer. *)
Definition timerInvariant (t : Timer.Component) : Prop :=
  validConfig (Timer.config t) /\
  0 <= timeRemaining (Timer.state t) /\
  Forall (fun cb => validConfig (timeoutConfig cb)) (Timer.timeouts t).

(** A 25 / 5 / 15 minute configuration with a long break every 4 sessions. *)
Definition classicConfig : TimerConfig :=
  {| focusDuration := 25; breakDuration := 5; longBreakDuration := 15;
     sessionsUntilLongBreak := 4 |}.

(** A timer running the fourth focus phase with [remaining] seconds left. *)
Definition runningFocus (remaining : Z) : Timer.Component :=
  {| Timer.config := classicConfig;
     Timer.stats := DEFAULT_STATISTICS;
     Timer.state :=
       {| isRunning := true; isPaused := false; currentPhase := focus;
          timeRemaining := remaining; completedSessions := 3 |};
     Timer.isTransitioning := false;
     Timer.isMuted := false;
     Timer.sessionStartTime := Some 1730073900000;
     Timer.timeouts := [] |}.



(** Two preference documents, or two preference objects, that agree on
    every field other than [autoStartBreaks] and [autoStartPomodoros]. *)
Definition documentsAgree (p1 p2 : Json.Preferences) : Prop :=
  Json.theme p1 = Json.theme p2 /\
  Json.notifications p1 = Json.notifications p2 /\
  Json.sound p1 = Json.sound p2.

Definition preferencesAgree (p1 p2 : UserPreferences) : Prop :=
  theme p1 = theme p2 /\
  notifications p1 = notifications p2 /\
  sound p1 = sound p2.

(** Two stores that differ at most in the two auto-start fields of the
    persisted preferences. *)
Definition sameButAutoStart (ls1 ls2 : LocalStorage) : Prop :=
  pomodoro_sessions ls1 = pomodoro_sessions ls2 /\
  pomodoro_statistics ls1 = pomodoro_statistics ls2 /\
  pomodoro_config ls1 = pomodoro_config ls2 /\
  match pomodoro_preferences ls1, pomodoro_preferences ls2 with
  | Some (Doc p1), Some (Doc p2) => documentsAgree p1 p2
  | v1, v2 => v1 = v2
  end.

(** Two outcomes that are both exceptions, or both results related by
    [rel], and leave stores that differ at most in the auto-start fields. *)
Definition sameOutcome {A} (rel : A -> A -> Prop)
  (o1 o2 : result A * LocalStorage) : Prop :=
  sameButAutoStart (snd o1) (snd o2) /\
  match fst o1, fst o2 with
  | Ok a, Ok b => rel a b
  | Throw e1, Throw e2 => e1 = e2
  | _, _ => False
  end.

(** Two computations that cannot tell such stores apart. *)
Definition blind {A} (rel : A -> A -> Prop) (m1 m2 : M A) : Prop :=
  forall ls1 ls2,
    sameButAutoStart ls1 ls2 -> sameOutcome rel (m1 ls1) (m2 ls2).

(** Stores with opposite auto-start preferences, and a short session:
    start, twelve ticks down to zero, the tick that completes the focus
    phase, the callback that enters the break, a mute toggle, one tick of
    the break. *)
Definition autoStartOn : LocalStorage :=
  mkLocalStorage
    (Some (Doc (Json.mkPreferences (Some dark) (Some true) (Some true)
                  (Some true) (Some true))))
    None None None.

Definition autoStartOff : LocalStorage :=
  mkLocalStorage
    (Some (Doc (Json.mkPreferences (Some dark) (Some true) (Some true)
                  (Some false) None)))
    None None None.

Definition shortSession : list Timer.Command :=
  Timer.Start 1730073900000 ::
  repeat (Timer.Tick mondayNight "id-0") 12 ++
  [Timer.Tick mondayNight "id-1"; Timer.RunTimeout 0 (mondayNight + 500);
   Timer.MuteToggle; Timer.Tick (mondayNight + 1500) "id-2"].

(** Two configurations that hold the same numbers. *)
Definition sameConfig (c1 c2 : TimerConfig) : Prop :=
  (focusDuration c1 == focusDuration c2)%Q /\
  (breakDuration c1 == breakDuration c2)%Q /\
  (longBreakDuration c1 == longBreakDuration c2)%Q /\
  sessionsUntilLongBreak c1 = sessionsUntilLongBreak c2.

(** A configuration that [saveTimerConfig] has nothing to clamp in. *)
Definition inRange (c : TimerConfig) : Prop :=
  (1 # 10 <= focusDuration c)%Q /\
  (1 # 10 <= breakDuration c)%Q /\
  (1 # 10 <= longBreakDuration c)%Q /\
  1 <= sessionsUntilLongBreak c.

(** A store in which only the statistics are malformed, with one recorded
    session. *)
Definition oneSession : SessionData :=
  mkSessionData "id-0" (mkSessionInput 1730000000000 1730001500000 focus true 1500).

Definition historyWithCorruptStatistics : LocalStorage :=
  mkLocalStorage None (Some (Doc [oneSession])) (Some (Text "not json")) None.

(** The interval firing [ticks] times, once per clock reading and id. *)
Definition ticking (ticks : list (Z * string)) : list Timer.Command :=
  map (fun tick => Timer.Tick (fst tick) (snd tick)) ticks.

(** A command that is the interval firing or a click on [pauseTimer]. *)
Definition tickOrPause (c : Timer.Command) : Prop :=
  match c with
  | Timer.Tick _ _ | Timer.Pause => True
  | _ => False
  end.

(** A paused timer in its first break. *)
Definition pausedBreak : Timer.Component :=
  {| Timer.config := classicConfig;
     Timer.stats := DEFAULT_STATISTICS;
     Timer.state :=
       {| isRunning := true; isPaused := true; currentPhase := break;
          timeRemaining := 120; completedSessions := 1 |};
     Timer.isTransitioning := false;
     Timer.isMuted := false;
     Timer.sessionStartTime := Some 1730073900000;
     Timer.timeouts := [] |}.

(** Bookkeeping kept by a mounted timer: the configuration is one that
    [getTimerConfig] returned; a timer without a session start time is not
    running or is in a transition; and a transition has a callback
    pending. *)
Definition bookkeeping (t : Timer.Component) : Prop :=
  inRange (Timer.config t) /\
  (Timer.sessionStartTime t = None ->
   isRunning (Timer.state t) = false \/ Timer.isTransitioning t = true) /\
  (Timer.isTransitioning t = true -> Timer.timeouts t <> []).

(** Seconds of the focus records, and of the other records, of a history. *)
Definition focusSeconds (history : list SessionData) : Z :=
  fold_right
    (fun (r : SessionData) acc =>
       if Phase_eqb (phase r) focus then duration r + acc else acc)
    0 history.

Definition breakSeconds (history : list SessionData) : Z :=
  fold_right
    (fun (r : SessionData) acc =>
       if Phase_eqb (phase r) focus then acc else duration r + acc)
    0 history.

(** The character of a decimal digit. *)
Definition digit (n : Z) : ascii := ascii_of_nat (48 + Z.to_nat n).

(** "MM:SS" spelled out digit by digit, for less than 100 minutes. *)
Definition clockFace (seconds : Z) : string :=
  String (digit (seconds / 600))
    (String (digit (seconds / 60 mod 10))
       (String ":"
          (String (digit (seconds mod 60 / 10))
             (String (digit (seconds mod 10)) EmptyString)))).

(** Two stores in which the history and the statistics read the same. *)
Definition sameLedger (ls ls' : LocalStorage) : Prop :=
  readSessions (pomodoro_sessions ls') = readSessions (pomodoro_sessions ls) /\
  readStatistics (pomodoro_statistics ls') =
    readStatistics (pomodoro_statistics ls).

(** A record as the timer writes it: completed, of at least 6 seconds. *)
Definition timerRecord (r : SessionData) : Prop :=
  completed r = true /\ 6 <= duration r.

(** The history of the store is [h0] followed by records of the timer, the
    statistics of the store are the ones the component shows, and their
    totals are those of [st0] plus the records added. *)
Definition ledger (h0 : list SessionData) (st0 : Stats.Statistics)
  (t : Timer.Component) (ls : LocalStorage) : Prop :=
  exists added,
    readSessions (pomodoro_sessions ls) = Ok (h0 ++ added) /\
    readStatistics (pomodoro_statistics ls) = Ok (Timer.stats t) /\
    Stats.totalFocusTime (Timer.stats t) =
      Stats.totalFocusTime st0 + focusSeconds added /\
    Stats.totalBreakTime (Timer.stats t) =
      Stats.totalBreakTime st0 + breakSeconds added /\
    Stats.completedSessions (Timer.stats t) =
      Stats.completedSessions st0 + Z.of_nat (List.length added) /\
    Forall timerRecord added.

(** A short focus phase and the break after it, both run to the end. *)
Definition focusThenBreak : list Timer.Command :=
  Timer.Start 1730073900000 ::
  repeat (Timer.Tick mondayNight "id-0") 12 ++
  [Timer.Tick mondayNight "id-1"; Timer.RunTimeout 0 (mondayNight + 500)] ++
  repeat (Timer.Tick (mondayNight + 1500) "id-0") 6 ++
  [Timer.Tick (mondayNight + 7500) "id-2"].

(** The object [{}], and a configuration whose focus duration is NaN. *)
Definition emptyObject : Runtime.TimerConfig :=
  Runtime.mkTimerConfig Runtime.Undefined Runtime.Undefined
    Runtime.Undefined Runtime.Undefined.

Definition nanFocus : Runtime.TimerConfig :=
  Runtime.mkTimerConfig (Runtime.Number Runtime.NaN)
    (Runtime.Number (Runtime.Finite 5%Q))
    (Runtime.Number (Runtime.Finite 15%Q))
    (Runtime.Number (Runtime.Finite 4)).

(** What is persisted for a property whose clamp argument converts to [n]:
    [null] for NaN and for infinity, the greater of [lo] and the number
    otherwise. *)
Definition persistedAs {A} (lo : A) (max : A -> A -> A)
  (n : Runtime.number A) (field : option A) : Prop :=
  match n with
  | Runtime.NaN | Runtime.Infinity => field = None
  | Runtime.NegInfinity => field = Some lo
  | Runtime.Finite a => field = Some (max lo a)
  end.

(** A timer mounted on an empty store runs its 12 second focus phase to the
    end; reset is clicked 250 ms after the phase completed; the callback of
    [handlePhaseComplete] runs (500 ms after the completion), then the
    callback of [resetTimer] (300 ms after the click). *)
Definition resetDuringTransition : list Timer.Command :=
  Timer.Start 1730073900000 ::
  repeat (Timer.Tick mondayNight "id-0") 12 ++
  [Timer.Tick mondayNight "id-1"; Timer.Reset;
   Timer.RunTimeout 0 (mondayNight + 500);
   Timer.RunTimeout 0 (mondayNight + 550)].

(* ------------------------------------------------------------------ *)
(** ** Properties of the persistence layer *)

Ltac unfold_store :=
  unfold initializeStorage, getPreferences, getTimerConfig, getSessions,
    getStatistics, savePreferences, saveTimerConfig, when, bind, ret,
    throwing, safe_getItem, safe_setItem, setItem, putItem, getItem,
    JSON_parse, JSON_stringify in *.

Lemma initializeStorage_eq (ls : LocalStorage) :
  initializeStorage ls = (Ok tt, initialized ls).
Proof.
  destruct ls as [p s st c].
  unfold initialized, initSlot. unfold_store. cbn.
  destruct (falsy p); cbn; destruct (falsy c); cbn;
    destruct (falsy s); cbn; destruct (falsy st); reflexivity.
Qed.

Lemma mergePreferences_json (p : UserPreferences) :
  mergePreferences (jsonOfPreferences p) = p.
Proof. destruct p; reflexivity. Qed.

Lemma mergeStatistics_json (s : Stats.Statistics) :
  mergeStatistics (jsonOfStatistics s) = s.
Proof. destruct s; reflexivity. Qed.

Lemma getPreferences_eq (ls : LocalStorage) :
  getPreferences ls = (readPreferences (pomodoro_preferences ls), initialized ls).
Proof.
  unfold getPreferences, bind. rewrite initializeStorage_eq.
  destruct ls as [[[[|a s]|p]|] ? ? ?]; reflexivity.
Qed.

Lemma getTimerConfig_eq (ls : LocalStorage) :
  getTimerConfig ls = (readConfig (pomodoro_config ls), initialized ls).
Proof.
  unfold getTimerConfig, bind. rewrite initializeStorage_eq.
  destruct ls as [? ? ? [[[|a s]|c]|]]; reflexivity.
Qed.

Lemma getSessions_eq (ls : LocalStorage) :
  getSessions ls = (readSessions (pomodoro_sessions ls), initialized ls).
Proof.
  unfold getSessions, bind. rewrite initializeStorage_eq.
  destruct ls as [? [[[|a s]|l]|] ? ?]; reflexivity.
Qed.

Lemma getStatistics_eq (ls : LocalStorage) :
  getStatistics ls = (readStatistics (pomodoro_statistics ls), initialized ls).
Proof.
  unfold getStatistics, bind. rewrite initializeStorage_eq.
  destruct ls as [? ? [[[|a s]|st]|] ?]; reflexivity.
Qed.

Lemma initialized_idem (ls : LocalStorage) :
  initialized (initialized ls) = initialized ls.
Proof.
  destruct ls as [[[[|? ?]|?]|] [[[|? ?]|?]|] [[[|? ?]|?]|] [[[|? ?]|?]|]];
    reflexivity.
Qed.

(** *** Clamping *)

Lemma Qmax_floor_cases (lo v : Q) :
  ((v <= lo)%Q -> Qmax lo v = lo) /\ ((lo < v)%Q -> Qmax lo v = v).
Proof.
  unfold Qmax, GenericMinMax.gmax. split; intro H.
  - destruct (Qcompare lo v) eqn:E; try reflexivity.
    apply Qlt_alt in E. exfalso. apply (Qlt_not_le _ _ E H).
  - destruct (Qcompare lo v) eqn:E; try reflexivity; exfalso.
    + apply Qeq_alt in E. rewrite E in H. apply (Qlt_irrefl _ H).
    + apply Qgt_alt in E. apply (Qlt_irrefl lo). apply Qlt_trans with v; assumption.
Qed.

Lemma Qmax_floor_le (lo v : Q) : (lo <= Qmax lo v)%Q.
Proof. apply Q.le_max_l. Qed.

Lemma Qmax_floor_idem (lo v : Q) : Qmax lo (Qmax lo v) = Qmax lo v.
Proof.
  destruct (Qlt_le_dec lo v) as [H | H].
  - rewrite (proj2 (Qmax_floor_cases lo v) H).
    apply (proj2 (Qmax_floor_cases lo v) H).
  - rewrite (proj1 (Qmax_floor_cases lo v) H).
    apply (proj1 (Qmax_floor_cases lo lo)). apply Qle_refl.
Qed.

Lemma Qmax_floor_pos (v : Q) : (0 < Qmax (1 # 10) v)%Q.
Proof.
  apply Qlt_le_trans with (1 # 10)%Q; [reflexivity | apply Qmax_floor_le].
Qed.

Lemma clampedConfig_valid (j : Json.Config) : validConfig (clampedConfig j).
Proof.
  unfold validConfig, clampedConfig; cbn [focusDuration breakDuration
    longBreakDuration sessionsUntilLongBreak].
  repeat split; try apply Qmax_floor_pos. apply Z.le_max_l.
Qed.

Lemma validatedConfig_valid (c : TimerConfig) : validConfig (validatedConfig c).
Proof.
  unfold validConfig, validatedConfig; cbn [focusDuration breakDuration
    longBreakDuration sessionsUntilLongBreak].
  repeat split; try apply Qmax_floor_pos. apply Z.le_max_l.
Qed.

Lemma DEFAULT_CONFIG_valid : validConfig DEFAULT_CONFIG.
Proof. repeat split; cbn; lia. Qed.

Lemma readConfig_valid (v : option (Item Json.Config)) (c : TimerConfig) :
  readConfig v = Ok c -> validConfig c.
Proof.
  destruct v as [[[|a s]|j]|]; cbn; intros H; inversion H; subst;
    auto using DEFAULT_CONFIG_valid, clampedConfig_valid.
Qed.

Lemma clampedConfig_validated (c : TimerConfig) :
  clampedConfig (jsonOfConfig (validatedConfig c)) = validatedConfig c.
Proof.
  unfold clampedConfig, validatedConfig, jsonOfConfig; cbn.
  rewrite !Qmax_floor_idem, Z.max_assoc, Z.max_id. reflexivity.
Qed.

Lemma validatedConfig_clamped (j : Json.Config) :
  validatedConfig (clampedConfig j) = clampedConfig j.
Proof.
  unfold clampedConfig, validatedConfig; cbn.
  rewrite !Qmax_floor_idem, Z.max_assoc, Z.max_id. reflexivity.
Qed.

(** C8. [saveTimerConfig] does not keep a duration above 0 when a property
    is missing or NaN.  For the object [{}] (what [importData] hands over
    for the backup text [{"timerConfig":{}}]) every [Math.max] is NaN and
    the persisted document holds [null] under all four names; for a
    configuration whose [focusDuration] is NaN the persisted
    [focusDuration] is [null].  Whatever the store held before. *)
Theorem C8_missing_or_NaN_is_persisted_as_null (ls : LocalStorage) :
  Runtime.saveTimerConfig emptyObject ls =
    (Ok tt,
     putItem TIMER_CONFIG
       (Some (Doc (Json.mkConfig None None None None))) ls) /\
  Runtime.saveTimerConfig nanFocus ls =
    (Ok tt,
     putItem TIMER_CONFIG
       (Some (Doc (Json.mkConfig None (Some 5%Q) (Some 15%Q) (Some 4)))) ls) /\
  Runtime.validFocusDuration (Runtime.validatedConfig emptyObject) =
    Runtime.NaN /\
  Runtime.validFocusDuration (Runtime.validatedConfig nanFocus) =
    Runtime.NaN.
Proof. repeat split. Qed.

(** [saveTimerConfig] on any object, with properties that are undefined,
    null, booleans or numbers: it returns; each persisted property is
    [null] when the property converts to NaN or to infinity and otherwise
    the number raised to at least 0.1 (1 for [sessionsUntilLongBreak]);
    [getTimerConfig] afterwards returns a configuration with positive
    durations and a cycle length of at least 1, a [null] coming back as
    the default; and on an object of four finite numbers it is
    [saveTimerConfig] as modelled on [TimerConfig]. *)
Theorem saveTimerConfig_at_run_time (config : Runtime.TimerConfig)
  (c : TimerConfig) (ls : LocalStorage) :
  (exists doc,
     Runtime.saveTimerConfig config ls =
       (Ok tt, putItem TIMER_CONFIG (Some (Doc doc)) ls) /\
     persistedAs (1 # 10) Qmax
       (Runtime.ToNumber inject_Z (Runtime.focusDuration config))
       (Json.focusDuration doc) /\
     persistedAs (1 # 10) Qmax
       (Runtime.ToNumber inject_Z (Runtime.breakDuration config))
       (Json.breakDuration doc) /\
     persistedAs (1 # 10) Qmax
       (Runtime.ToNumber inject_Z (Runtime.longBreakDuration config))
       (Json.longBreakDuration doc) /\
     persistedAs 1 Z.max
       (Runtime.ToNumber (fun z => z) (Runtime.sessionsUntilLongBreak config))
       (Json.sessionsUntilLongBreak doc)) /\
  (exists c',
     fst (getTimerConfig (snd (Runtime.saveTimerConfig config ls))) = Ok c' /\
     validConfig c') /\
  Runtime.saveTimerConfig (runtimeConfig c) ls = saveTimerConfig c ls.
Proof.
  split; [| split].
  - eexists. split; [reflexivity |].
    destruct config as [f b l n]; cbn.
    repeat split.
    + destruct f as [| | [|] | [q | | |]]; reflexivity.
    + destruct b as [| | [|] | [q | | |]]; reflexivity.
    + destruct l as [| | [|] | [q | | |]]; reflexivity.
    + destruct n as [| | [|] | [q | | |]]; reflexivity.
  - eexists. split; [| apply clampedConfig_valid].
    rewrite getTimerConfig_eq. destruct ls; reflexivity.
  - destruct c; reflexivity.
Qed.

(** C3, as the code has it.  For every persisted configuration document,
    [getTimerConfig] returns without raising, each duration being the
    default when the field is missing, 0.1 when the persisted value is at
    most 0.1 (so also when it is zero or negative), and the persisted value
    otherwise; [sessionsUntilLongBreak] is the default 4 when missing and
    otherwise the persisted value raised to at least 1.  [saveTimerConfig]
    does not raise either and persists each duration raised to at least 0.1
    and [sessionsUntilLongBreak] raised to at least 1. *)
Theorem C3_get_set_clamp
  (ls : LocalStorage) (stored : Json.Config) (input : TimerConfig) :
  (exists c,
     fst (getTimerConfig (putItem TIMER_CONFIG (Some (Doc stored)) ls)) = Ok c /\
     durationRead (Json.focusDuration stored)
       (focusDuration DEFAULT_CONFIG) (focusDuration c) /\
     durationRead (Json.breakDuration stored)
       (breakDuration DEFAULT_CONFIG) (breakDuration c) /\
     durationRead (Json.longBreakDuration stored)
       (longBreakDuration DEFAULT_CONFIG) (longBreakDuration c) /\
     sessionsUntilLongBreak c =
       match Json.sessionsUntilLongBreak stored with
       | None => sessionsUntilLongBreak DEFAULT_CONFIG
       | Some n => Z.max 1 n
       end) /\
  (exists v,
     saveTimerConfig input ls =
       (Ok tt, putItem TIMER_CONFIG (Some (Doc (jsonOfConfig v))) ls) /\
     raisedToTenth (focusDuration input) (focusDuration v) /\
     raisedToTenth (breakDuration input) (breakDuration v) /\
     raisedToTenth (longBreakDuration input) (longBreakDuration v) /\
     sessionsUntilLongBreak v = Z.max 1 (sessionsUntilLongBreak input)).
Proof.
  split.
  - exists (clampedConfig stored). split.
    + rewrite getTimerConfig_eq. destruct ls; reflexivity.
    + destruct stored as [[f|] [b|] [l|] [n|]]; cbn;
        repeat split; try apply Qmax_floor_cases; reflexivity.
  - exists (validatedConfig input). split; [reflexivity |].
    destruct input; cbn; repeat split; apply Qmax_floor_cases.
Qed.

(** C3, counterexample to the claim as stated.  The store holds the
    configuration document with [focusDuration = -5].  The claim replaces a
    duration that is at most 0 by the default (0.2 for the focus duration)
    before clamping, which gives 0.2; [getTimerConfig] returns 0.1. *)
Lemma C3_nonpositive_duration_is_not_defaulted :
  exists c,
    fst (getTimerConfig outOfRangeStorage) = Ok c /\
    focusDuration c = (1 # 10)%Q /\
    Spec.clampedDuration (Json.focusDuration outOfRangeConfig)
      (focusDuration DEFAULT_CONFIG) = (2 # 10)%Q /\
    ~ (focusDuration c ==
       Spec.clampedDuration (Json.focusDuration outOfRangeConfig)
         (focusDuration DEFAULT_CONFIG))%Q.
Proof.
  exists (clampedConfig outOfRangeConfig). repeat split.
  vm_compute. discriminate.
Qed.

(** *** Malformed text under a key *)

(** Each reader raises [SyntaxError] exactly when the text under its key is
    not JSON (and not empty). *)
Lemma readers_throw_iff_malformed (ls : LocalStorage) :
  (fst (getPreferences ls) = Throw SyntaxError <->
     parses (pomodoro_preferences ls) = false) /\
  (fst (getTimerConfig ls) = Throw SyntaxError <->
     parses (pomodoro_config ls) = false) /\
  (fst (getSessions ls) = Throw SyntaxError <->
     parses (pomodoro_sessions ls) = false) /\
  (fst (getStatistics ls) = Throw SyntaxError <->
     parses (pomodoro_statistics ls) = false).
Proof.
  rewrite getPreferences_eq, getTimerConfig_eq, getSessions_eq, getStatistics_eq.
  destruct ls as [[[[|? ?]|?]|] [[[|? ?]|?]|] [[[|? ?]|?]|] [[[|? ?]|?]|]];
    cbn; repeat split; intros; congruence.
Qed.

(** C4, the code at the failing input.  With text that is not JSON under
    the four keys every reader raises [SyntaxError], whereas on a store with
    the four keys absent every reader answers the defaults (the empty
    history for the sessions). *)
Theorem C4_malformed_json_raises :
  fst (getPreferences corruptStorage) = Throw SyntaxError /\
  fst (getTimerConfig corruptStorage) = Throw SyntaxError /\
  fst (getSessions corruptStorage) = Throw SyntaxError /\
  fst (getStatistics corruptStorage) = Throw SyntaxError /\
  fst (getPreferences emptyStorage) = Ok DEFAULT_PREFERENCES /\
  fst (getTimerConfig emptyStorage) = Ok DEFAULT_CONFIG /\
  fst (getSessions emptyStorage) = Ok [] /\
  fst (getStatistics emptyStorage) = Ok DEFAULT_STATISTICS.
Proof. repeat split. Qed.

(** *** Backup and restore *)

Lemma readPreferences_init (v : option (Item Json.Preferences)) :
  readPreferences (initSlot (jsonOfPreferences DEFAULT_PREFERENCES) v) =
  readPreferences v.
Proof. destruct v as [[[|? ?]|?]|]; reflexivity. Qed.

Lemma readConfig_init (v : option (Item Json.Config)) :
  readConfig (initSlot (jsonOfConfig DEFAULT_CONFIG) v) = readConfig v.
Proof. destruct v as [[[|? ?]|?]|]; reflexivity. Qed.

Lemma readSessions_init (v : option (Item (list SessionData))) :
  readSessions (initSlot [] v) = readSessions v.
Proof. destruct v as [[[|? ?]|?]|]; reflexivity. Qed.

Lemma readStatistics_init (v : option (Item Json.Statistics)) :
  readStatistics (initSlot (jsonOfStatistics DEFAULT_STATISTICS) v) =
  readStatistics v.
Proof. destruct v as [[[|? ?]|?]|]; reflexivity. Qed.

Lemma readConfig_fixed (v : option (Item Json.Config)) (c : TimerConfig) :
  readConfig v = Ok c -> validatedConfig c = c.
Proof.
  destruct v as [[[|? ?]|j]|]; cbn; intros H; inversion H; subst;
    try reflexivity.
  apply validatedConfig_clamped.
Qed.

(** On a store without malformed text, [exportData] returns a backup,
    [importData] of that backup reports success, and afterwards each of the
    four readers answers what it answered before. *)
Lemma export_import_roundtrip (ls : LocalStorage) :
  wellFormed ls ->
  exists backup ls1 ls2,
    exportData ls = (Ok backup, ls1) /\
    importData backup ls1 = (Ok true, ls2) /\
    fst (getPreferences ls2) = fst (getPreferences ls) /\
    fst (getTimerConfig ls2) = fst (getTimerConfig ls) /\
    fst (getSessions ls2) = fst (getSessions ls) /\
    fst (getStatistics ls2) = fst (getStatistics ls).
Proof.
  intros (Hp & Hs & Hst & Hc).
  assert (exists p, readPreferences (pomodoro_preferences ls) = Ok p) as [p Ep]
    by (destruct (pomodoro_preferences ls) as [[[|? ?]|?]|]; cbn in *;
        eauto; discriminate).
  assert (exists c, readConfig (pomodoro_config ls) = Ok c) as [c Ec]
    by (destruct (pomodoro_config ls) as [[[|? ?]|?]|]; cbn in *;
        eauto; discriminate).
  assert (exists s, readSessions (pomodoro_sessions ls) = Ok s) as [s Es]
    by (destruct (pomodoro_sessions ls) as [[[|? ?]|?]|]; cbn in *;
        eauto; discriminate).
  assert (exists st, readStatistics (pomodoro_statistics ls) = Ok st) as [st Est]
    by (destruct (pomodoro_statistics ls) as [[[|? ?]|?]|]; cbn in *;
        eauto; discriminate).
  assert (exportData ls =
          (Ok (Doc (mkBackup (Some (jsonOfPreferences p)) (Some c) (Some s)
                      (Some (jsonOfStatistics st)))), initialized ls)) as Ex.
  { unfold exportData, bind.
    rewrite getPreferences_eq, Ep, getTimerConfig_eq, initialized_idem.
    cbn [pomodoro_config initialized]. rewrite readConfig_init, Ec.
    rewrite getSessions_eq, initialized_idem.
    cbn [pomodoro_sessions initialized]. rewrite readSessions_init, Es.
    rewrite getStatistics_eq, initialized_idem.
    cbn [pomodoro_statistics initialized]. rewrite readStatistics_init, Est.
    reflexivity. }
  do 3 eexists. split; [exact Ex |]. split; [reflexivity |].
  rewrite !getPreferences_eq, !getTimerConfig_eq, !getSessions_eq,
    !getStatistics_eq.
  cbn. rewrite Ep, Ec, Es, Est, !mergePreferences_json, mergeStatistics_json,
    clampedConfig_validated, (readConfig_fixed _ _ Ec).
  repeat split.
Qed.

(** C9, the code at the failing input.  The statistics key holds text that
    is not JSON: [exportData] raises [SyntaxError] instead of returning a
    backup, so there is nothing to import. *)
Theorem C9_export_raises_on_malformed_store :
  fst (exportData corruptStatisticsStorage) = Throw SyntaxError.
Proof. reflexivity. Qed.

(** *** The streak *)

Lemma toISODate_parseISODate (d : IsoDate) : toISODate (parseISODate d) = d.
Proof.
  unfold toISODate, parseISODate, Day, MakeDate, msPerDay.
  rewrite Z.add_0_r. apply Z.div_mul. discriminate.
Qed.

Lemma setDate_previous_fixedZone (offset now : Z) :
  setDate_previous (fixedZone offset) now = now - msPerDay.
Proof.
  unfold setDate_previous, LocalTime, UTC, MakeDate, Day, TimeWithinDay,
    fixedZone, msPerDay; cbn [LocalTZA].
  pose proof (Z.div_mod (now + offset) 86400000). lia.
Qed.

Lemma toISODate_previous_day (now : Z) :
  toISODate (now - msPerDay) = toISODate now - 1.
Proof.
  unfold toISODate, Day, msPerDay.
  replace (now - 86400000) with (now + (-1) * 86400000) by lia.
  rewrite Z.div_add by discriminate. lia.
Qed.

(** In a time zone without daylight saving the streak follows the case
    split on calendar dates: first session, 1; same day, unchanged; the day
    after the last session, one more; any other day, 1. *)
Lemma updateStreak_fixedZone (offset now : Z) (stats : Stats.Statistics) :
  updateStreak (fixedZone offset) now stats =
  match Stats.lastSessionDate stats with
  | None => 1
  | Some last =>
      if last =? toISODate now then Stats.dailyStreak stats
      else if last =? toISODate now - 1 then Stats.dailyStreak stats + 1
      else 1
  end.
Proof.
  unfold updateStreak. destruct (Stats.lastSessionDate stats) as [last|]; auto.
  rewrite toISODate_parseISODate, setDate_previous_fixedZone,
    toISODate_previous_day, (Z.eqb_sym (toISODate now) last).
  reflexivity.
Qed.

(** [updateStatistics] on a store whose statistics can be read. *)
Lemma updateStatistics_eq (tz : TimeZone) (now : Z) (session : SessionInput)
  (ls : LocalStorage) (stats : Stats.Statistics) :
  readStatistics (pomodoro_statistics ls) = Ok stats ->
  updateStatistics tz now session ls =
  (Ok tt,
   putItem STATISTICS
     (Some (Doc (jsonOfStatistics (updatedStatistics tz now session stats))))
     (initialized ls)).
Proof.
  intros H. unfold updateStatistics, bind.
  rewrite getStatistics_eq, H. reflexivity.
Qed.

(** On a host without daylight saving, and whatever the session, a call of
    [updateStatistics] on a store whose statistics can be read returns and
    persists statistics whose [lastSessionDate] is today and whose
    [dailyStreak] follows the case split on the previous [lastSessionDate]:
    none, 1; today, unchanged; the day before today, one more; any other
    date, 1. *)
Lemma updateStatistics_fixedZone
  (offset now : Z) (session : SessionInput) (ls : LocalStorage)
  (stats : Stats.Statistics) :
  fst (getStatistics ls) = Ok stats ->
  exists ls' stats',
    updateStatistics (fixedZone offset) now session ls = (Ok tt, ls') /\
    fst (getStatistics ls') = Ok stats' /\
    Stats.lastSessionDate stats' = Some (toISODate now) /\
    Stats.dailyStreak stats' =
      match Stats.lastSessionDate stats with
      | None => 1
      | Some last =>
          if last =? toISODate now then Stats.dailyStreak stats
          else if last =? toISODate now - 1 then Stats.dailyStreak stats + 1
          else 1
      end.
Proof.
  rewrite getStatistics_eq. cbn [fst]. intros H.
  rewrite (updateStatistics_eq _ now session ls stats H).
  do 2 eexists. split; [reflexivity |].
  rewrite getStatistics_eq. cbn.
  split; [reflexivity |]. split; [reflexivity |].
  apply updateStreak_fixedZone.
Qed.

(** C1, the code at the failing input.  The last session was recorded on
    2024-10-27 with a streak of 5; the next one is recorded at
    2024-10-28T00:30Z on a host in the Europe/London zone, where summer time
    ended the day before.  Today is 2024-10-28, exactly one calendar day
    after the last session date, yet the persisted streak is 1 and not 6:
    the local-time [setDate(getDate() - 1)] gives 00:30 summer time on the
    27th, which is 2024-10-26T23:30Z, so the ISO date of [yesterday] is the
    26th.  On a host without daylight saving the same call gives 6. *)
Theorem C1_streak_reset_after_dst_change :
  toISODate mondayNight = sunday + 1 /\
  updateStatistics europeLondon mondayNight mondaySession sundayStorage =
    (Ok tt,
     putItem STATISTICS
       (Some (Doc (jsonOfStatistics
          {| Stats.totalFocusTime := 9000;
             Stats.totalBreakTime := 1200;
             Stats.completedSessions := 10;
             Stats.dailyStreak := 1;
             Stats.lastSessionDate := Some (sunday + 1) |})))
       (initialized sundayStorage)) /\
  toISODate (setDate_previous europeLondon mondayNight) = sunday - 1 /\
  updateStreak (fixedZone 0) mondayNight sundayStatistics = 6.
Proof. repeat split. Qed.

(* ------------------------------------------------------------------ *)
(** ** Properties of the timer component *)

Import Timer.

Lemma bind_ok_inv {A B} (m : M A) (k : A -> M B) ls b ls2 :
  bind m k ls = (Ok b, ls2) ->
  exists a ls1, m ls = (Ok a, ls1) /\ k a ls1 = (Ok b, ls2).
Proof.
  unfold bind. destruct (m ls) as [[a | e] ls1]; [eauto | discriminate].
Qed.

Lemma ret_ok_inv {A} (a b : A) ls ls' :
  ret a ls = (Ok b, ls') -> a = b /\ ls = ls'.
Proof. unfold ret. intros H. inversion H. auto. Qed.

Ltac bind_inv H :=
  repeat (apply bind_ok_inv in H; destruct H as (? & ? & ? & H)).

Lemma getTimerConfig_valid ls c ls' :
  getTimerConfig ls = (Ok c, ls') -> validConfig c.
Proof.
  rewrite getTimerConfig_eq. intros H. inversion H.
  eapply readConfig_valid; eauto.
Qed.

Lemma Math_round_nonneg (x : Q) : (0 <= x)%Q -> 0 <= Math_round x.
Proof.
  intros H. unfold Math_round.
  change 0 with (Qfloor 0). apply Qfloor_resp_le. lra.
Qed.

Lemma phaseSeconds_nonneg (c : TimerConfig) (ph : Phase) :
  validConfig c -> 0 <= phaseSeconds c ph.
Proof.
  intros (Hf & Hb & Hl & _). unfold phaseSeconds. apply Math_round_nonneg.
  destruct ph; cbn; lra.
Qed.


(** *** What the handlers leave unchanged *)

Lemma saveCompletedSession_inv tz now uuid t ls t' ls' :
  saveCompletedSession tz now uuid t ls = (Ok t', ls') ->
  config t' = config t /\
  isTransitioning t' = isTransitioning t /\
  isMuted t' = isMuted t /\
  sessionStartTime t' = sessionStartTime t /\
  timeouts t' = timeouts t /\
  isRunning (state t') = isRunning (state t) /\
  isPaused (state t') = isPaused (state t) /\
  currentPhase (state t') = currentPhase (state t) /\
  timeRemaining (state t') = timeRemaining (state t).
Proof.
  unfold saveCompletedSession. destruct (sessionStartTime t) eqn:Es.
  - intros H. bind_inv H. apply ret_ok_inv in H as [<- _].
    cbn. rewrite Es. repeat split.
  - intros H. apply ret_ok_inv in H as [<- _]. rewrite Es. repeat split.
Qed.

Lemma handlePhaseComplete_inv tz now uuid t ls t' ls' :
  handlePhaseComplete tz now uuid t ls = (Ok t', ls') ->
  config t' = config t /\
  isTransitioning t' = true /\
  isMuted t' = isMuted t /\
  sessionStartTime t' = sessionStartTime t /\
  timeouts t' =
    timeouts t ++
    [PhaseTimeout (nextPhase (state t) (config t))
       (nextSessionCount (state t)) (config t)] /\
  isRunning (state t') = isRunning (state t) /\
  isPaused (state t') = isPaused (state t) /\
  currentPhase (state t') = currentPhase (state t) /\
  timeRemaining (state t') = timeRemaining (state t).
Proof.
  unfold handlePhaseComplete. intros H. bind_inv H.
  apply ret_ok_inv in H as [<- _].
  apply saveCompletedSession_inv in H0. cbn in *.
  destruct H0 as (-> & -> & -> & -> & -> & -> & -> & -> & ->).
  repeat split.
Qed.

(** *** Pending callbacks *)

Lemma nth_error_last {A} (l : list A) (a : A) :
  nth_error (l ++ [a]) (List.length l) = Some a.
Proof. rewrite nth_error_app2, Nat.sub_diag by lia. reflexivity. Qed.

Lemma remove_last {A} (l : list A) (a : A) :
  firstn (List.length l) (l ++ [a]) ++ skipn (S (List.length l)) (l ++ [a]) = l.
Proof.
  rewrite firstn_app, Nat.sub_diag, firstn_all, skipn_all2, !app_nil_r.
  - reflexivity.
  - rewrite List.length_app. cbn. lia.
Qed.

Lemma runTimeout_phase (t : Component) l next count cfg now :
  timeouts t = l ++ [PhaseTimeout next count cfg] ->
  runTimeout (List.length l) now t =
  phaseTimeout now next count cfg (clearTimeoutAt (List.length l) t) /\
  timeouts (clearTimeoutAt (List.length l) t) = l.
Proof.
  intros H. unfold runTimeout, clearTimeoutAt; cbn [timeouts].
  rewrite H, nth_error_last, remove_last. auto.
Qed.

Lemma runTimeout_reset (t : Component) l ph cfg now :
  timeouts t = l ++ [ResetTimeout ph cfg] ->
  runTimeout (List.length l) now t =
  resetTimeout ph cfg (clearTimeoutAt (List.length l) t) /\
  timeouts (clearTimeoutAt (List.length l) t) = l.
Proof.
  intros H. unfold runTimeout, clearTimeoutAt; cbn [timeouts].
  rewrite H, nth_error_last, remove_last. auto.
Qed.

Lemma rem_is_zero_mod (a b : Z) :
  1 <= b -> rem_is_zero a b = (a mod b =? 0).
Proof.
  intros Hb. unfold rem_is_zero.
  destruct (Z.eqb_spec b 0) as [-> | Hnz]; [lia |].
  destruct (Z.eqb_spec (Z.rem a b) 0) as [Hr | Hr];
    destruct (Z.eqb_spec (a mod b) 0) as [Hm | Hm]; try reflexivity; exfalso.
  - apply Hm. apply Z.rem_divide in Hr; [| assumption].
    apply Z.mod_divide; assumption.
  - apply Hr. apply Z.mod_divide in Hm; [| assumption].
    apply Z.rem_divide; assumption.
Qed.

(** The state once the callback of [handlePhaseComplete] has run. *)
Lemma phase_transition_resolved tz now uuid now' t ls t1 ls1 :
  handlePhaseComplete tz now uuid t ls = (Ok t1, ls1) ->
  let next := nextPhase (state t) (config t) in
  let t2 := runTimeout (List.length (timeouts t)) now' t1 in
  state t2 =
    {| isRunning := negb (Phase_eqb next focus);
       isPaused := isPaused (state t);
       currentPhase := next;
       timeRemaining := phaseSeconds (config t) next;
       completedSessions := nextSessionCount (state t) |} /\
  isTransitioning t2 = false /\
  timeouts t2 = timeouts t /\
  config t2 = config t.
Proof.
  intros H. apply handlePhaseComplete_inv in H.
  destruct H as (Hc & _ & _ & _ & Ht & _ & Hp & _ & _).
  destruct (runTimeout_phase t1 _ _ _ _ now' Ht) as [-> Hl].
  cbn zeta. unfold phaseTimeout.
  destruct (negb (Phase_eqb (nextPhase (state t) (config t)) focus));
    unfold setSessionStartTime, setIsTransitioning, setState;
    cbn [state timeouts isTransitioning config];
    rewrite Hl; cbn [clearTimeoutAt state config]; rewrite Hp, Hc; auto.
Qed.

(** C2. Whenever [handlePhaseComplete] fires (with a cycle length of at
    least 1, as every configuration read from the store has), the phase
    entered when its callback runs is: after [focus], [longBreak] if
    (completedSessions + 1) mod sessionsUntilLongBreak = 0 and [break]
    otherwise; after [break] or [longBreak], [focus].  [completedSessions]
    is one more than before after [focus] and the same as before after
    [break] and [longBreak]. *)
Theorem C2_phase_cycle tz now uuid now' t ls t1 ls1 :
  1 <= sessionsUntilLongBreak (config t) ->
  handlePhaseComplete tz now uuid t ls = (Ok t1, ls1) ->
  let t2 := runTimeout (List.length (timeouts t)) now' t1 in
  let n := completedSessions (state t) in
  currentPhase (state t2) =
    match currentPhase (state t) with
    | focus =>
        if (n + 1) mod sessionsUntilLongBreak (config t) =? 0
        then longBreak else break
    | break | longBreak => focus
    end /\
  completedSessions (state t2) =
    match currentPhase (state t) with
    | focus => n + 1
    | break | longBreak => n
    end.
Proof.
  intros Hn H. cbn zeta.
  destruct (phase_transition_resolved _ _ _ now' _ _ _ _ H) as (-> & _).
  cbn. unfold nextPhase, nextSessionCount.
  rewrite (rem_is_zero_mod _ _ Hn).
  destruct (currentPhase (state t)); auto.
Qed.

(** C2 on a timer that completes its fourth focus phase (cycle length 4):
    the long break is entered and the count goes from 3 to 4. *)
Lemma C2_phase_cycle_witness :
  exists t1 ls1,
    handlePhaseComplete europeLondon mondayNight "id-4" (runningFocus 0)
      emptyStorage = (Ok t1, ls1) /\
    currentPhase (state (runTimeout 0 (mondayNight + 500) t1)) = longBreak /\
    completedSessions (state (runTimeout 0 (mondayNight + 500) t1)) = 4.
Proof.
  do 2 eexists. split; [vm_compute; reflexivity |].
  refine (C2_phase_cycle europeLondon mondayNight "id-4" (mondayNight + 500)
            (runningFocus 0) emptyStorage _ _ _ _).
  - cbn. lia.
  - vm_compute; reflexivity.
Defined.



(** *** Reset *)

Lemma run_ticks_in_transition tz (ticks : list (Z * string))
  (cs : list Command) (t : Component) (ls : LocalStorage) :
  isTransitioning t = true ->
  run tz (ticking ticks ++ cs) t ls = run tz cs t ls.
Proof.
  intros Htr. induction ticks as [| [now uuid] ticks IH]; [reflexivity |].
  cbn [ticking map app run fst snd step]. unfold bind, tick, tickEnabled.
  rewrite Htr, andb_false_r. cbn [ret]. exact IH.
Qed.

(** C7. Reset pressed during a phase transition.  A timer mounted on an
    empty store (focus 12 seconds, break 6 seconds) runs its focus phase to
    the end; reset is clicked while the callback of [handlePhaseComplete]
    is pending; that callback runs, then the callback of [resetTimer].
    The timer ends up not running in the break phase, no transition in
    progress and no callback pending, with [timeRemaining] 12, the focus
    duration and not the 6 seconds of the phase it is in, and with a
    session start time set. *)
Theorem C7_reset_during_transition :
  exists t ls,
    session europeLondon resetDuringTransition emptyStorage = (Ok t, ls) /\
    isRunning (state t) = false /\
    isPaused (state t) = false /\
    isTransitioning t = false /\
    timeouts t = [] /\
    currentPhase (state t) = break /\
    timeRemaining (state t) = 12 /\
    Math_round (breakDuration (config t) * 60)%Q = 6 /\
    Math_round (focusDuration (config t) * 60)%Q = 12 /\
    sessionStartTime t = Some (mondayNight + 500).
Proof.
  do 2 eexists. split; [vm_compute; reflexivity |]. repeat split.
Qed.

(** From any timer state, pressing reset and letting its callback run
    before any other pending callback, with any number of interval ticks
    in between, leaves the timer idle ([isRunning] and [isPaused] false, no
    transition in progress) with [timeRemaining] [Math.round] of 60 times
    the configured minutes of the current phase ([focusDuration] for
    [focus], [breakDuration] for [break], [longBreakDuration] for
    [longBreak]), the session start time discarded, and the phase, the
    session count, the configuration, the statistics, the mute flag, the
    callbacks that were pending and the store (so the session history)
    untouched.  A timer running a 25 minute focus phase with 37 seconds
    left is reset to 1500 seconds. *)
Theorem reset_returns_to_idle tz now (ticks : list (Z * string))
  (t : Component) (ls : LocalStorage) :
  let t2 := runTimeout (List.length (timeouts t)) now (resetTimer t) in
  run tz
    (Reset :: ticking ticks ++ [RunTimeout (List.length (timeouts t)) now])
    t ls = (Ok t2, ls) /\
  isRunning (state t2) = false /\
  isPaused (state t2) = false /\
  isTransitioning t2 = false /\
  timeRemaining (state t2) =
    Math_round
      (match currentPhase (state t) with
       | focus => focusDuration (config t)
       | break => breakDuration (config t)
       | longBreak => longBreakDuration (config t)
       end * 60)%Q /\
  sessionStartTime t2 = None /\
  currentPhase (state t2) = currentPhase (state t) /\
  completedSessions (state t2) = completedSessions (state t) /\
  config t2 = config t /\
  stats t2 = stats t /\
  isMuted t2 = isMuted t /\
  timeouts t2 = timeouts t /\
  timeRemaining
    (state (runTimeout 0 now (resetTimer (runningFocus 37)))) = 1500.
Proof.
  cbn zeta.
  assert (timeouts (resetTimer t) =
          timeouts t ++ [ResetTimeout (currentPhase (state t)) (config t)])
    as Ht by reflexivity.
  destruct (runTimeout_reset _ _ _ _ now Ht) as [E Hl].
  split.
  - cbn [run step]. unfold bind at 1. cbn [ret].
    rewrite run_ticks_in_transition by reflexivity. reflexivity.
  - rewrite E.
    unfold resetTimeout, setIsTransitioning, setState, phaseSeconds,
      getCurrentPhaseDuration.
    cbn [state timeouts isTransitioning sessionStartTime isRunning isPaused
         timeRemaining currentPhase completedSessions config stats isMuted].
    rewrite Hl. repeat split.
Qed.

(** *** The countdown *)

Lemma handleSettingsChange_inv t ls t' ls' :
  handleSettingsChange t ls = (Ok t', ls') ->
  validConfig (config t') /\
  timeouts t' = timeouts t /\
  (timeRemaining (state t') = timeRemaining (state t) \/
   timeRemaining (state t') = Math_round (focusDuration (config t') * 60)%Q).
Proof.
  unfold handleSettingsChange. intros H. bind_inv H.
  apply ret_ok_inv in H as [<- _].
  apply getTimerConfig_valid in H0.
  destruct (negb (isRunning (state t))); cbn; auto.
Qed.

Lemma handleSettingsChange_invariant t ls t' ls' :
  timerInvariant t ->
  handleSettingsChange t ls = (Ok t', ls') -> timerInvariant t'.
Proof.
  intros (_ & Hr & Hf) H.
  apply handleSettingsChange_inv in H as (Hc & Ht & Hs).
  repeat split; try apply Hc.
  - destruct Hs as [-> | ->]; [assumption |].
    apply (phaseSeconds_nonneg _ focus Hc).
  - now rewrite Ht.
Qed.

Lemma mount_invariant ls t ls' : mount ls = (Ok t, ls') -> timerInvariant t.
Proof.
  unfold mount. intros H. bind_inv H. apply ret_ok_inv in H as [<- _].
  match goal with
  | Hc : getTimerConfig _ = (Ok ?c, _) |- timerInvariant (mkComponent ?c _ _ _ _ _ _) =>
      apply getTimerConfig_valid in Hc;
      repeat split; try apply Hc; cbn;
      [apply (phaseSeconds_nonneg _ focus Hc) | constructor]
  end.
Qed.

Lemma Forall_firstn_keeps {A} (P : A -> Prop) (l : list A) :
  Forall P l -> forall n, Forall P (firstn n l).
Proof. induction 1; intros [| n]; cbn; auto. Qed.

Lemma Forall_skipn_keeps {A} (P : A -> Prop) (l : list A) :
  Forall P l -> forall n, Forall P (skipn n l).
Proof. induction 1; intros [| n]; cbn; auto. Qed.

Lemma runTimeout_invariant i now t :
  timerInvariant t -> timerInvariant (runTimeout i now t).
Proof.
  intros (Hc & Hr & Hf). unfold runTimeout.
  destruct (nth_error (timeouts t) i) as [cb |] eqn:E;
    [| exact (conj Hc (conj Hr Hf))].
  assert (validConfig (timeoutConfig cb)) as Hcb
    by (rewrite Forall_forall in Hf; apply Hf; eapply nth_error_In; eauto).
  assert (Forall (fun cb => validConfig (timeoutConfig cb))
            (timeouts (clearTimeoutAt i t))) as Hf'.
  { unfold clearTimeoutAt; cbn [timeouts]. apply Forall_app. split;
      [apply Forall_firstn_keeps | apply Forall_skipn_keeps]; assumption. }
  destruct cb as [next count cfg | ph cfg]; cbn in Hcb.
  - unfold phaseTimeout.
    destruct (negb (Phase_eqb next focus));
      unfold timerInvariant, setSessionStartTime, setIsTransitioning, setState;
      cbn [config state timeouts timeRemaining];
      (split; [exact Hc | split; [now apply phaseSeconds_nonneg | exact Hf']]).
  - unfold resetTimeout,
      timerInvariant, setSessionStartTime, setIsTransitioning, setState;
      cbn [config state timeouts timeRemaining];
      (split; [exact Hc | split; [now apply phaseSeconds_nonneg | exact Hf']]).
Qed.

Section Countdown.

Variable tz : TimeZone.

Lemma tick_invariant now uuid t ls t' ls' :
  timerInvariant t -> tick tz now uuid t ls = (Ok t', ls') -> timerInvariant t'.
Proof.
  intros (Hc & Hr & Hf). unfold tick.
  destruct (tickEnabled t);
    [destruct (timeRemaining (state t) <=? 0) eqn:E |]; intros H.
  - apply handlePhaseComplete_inv in H.
    destruct H as (Hc' & _ & _ & _ & Ht & _ & _ & _ & Hr').
    unfold timerInvariant. rewrite Hc', Ht, Hr'. repeat split; try apply Hc; auto.
    apply Forall_app. split; [assumption |]. constructor; [exact Hc | constructor].
  - apply ret_ok_inv in H as [<- _]. apply Z.leb_gt in E.
    repeat split; cbn; try apply Hc; auto. lia.
  - apply ret_ok_inv in H as [<- _]. repeat split; try apply Hc; auto.
Qed.

Lemma step_invariant c t ls t' ls' :
  timerInvariant t -> step tz c t ls = (Ok t', ls') -> timerInvariant t'.
Proof.
  intros Hi. destruct c; cbn [step]; intros H.
  - eapply tick_invariant; eauto.
  - apply ret_ok_inv in H as [<- _]. destruct Hi as (Hc & Hr & Hf).
    repeat split; try apply Hc; auto.
  - apply ret_ok_inv in H as [<- _]. destruct Hi as (Hc & Hr & Hf).
    repeat split; try apply Hc; auto.
  - apply ret_ok_inv in H as [<- _]. destruct Hi as (Hc & Hr & Hf).
    repeat split; try apply Hc; auto. cbn.
    apply Forall_app. split; [assumption |]. constructor; [exact Hc | constructor].
  - apply ret_ok_inv in H as [<- _]. now apply runTimeout_invariant.
  - unfold handleMuteToggle in H. bind_inv H. apply ret_ok_inv in H as [<- _].
    destruct Hi as (Hc & Hr & Hf). repeat split; try apply Hc; auto.
  - eapply handleSettingsChange_invariant; eauto.
  - apply bind_ok_inv in H as (? & ? & _ & H).
    eapply handleSettingsChange_invariant; eauto.
  - apply bind_ok_inv in H as (? & ? & _ & H).
    eapply handleSettingsChange_invariant; eauto.
Qed.

Lemma run_invariant cs : forall t ls t' ls',
  timerInvariant t -> run tz cs t ls = (Ok t', ls') -> timerInvariant t'.
Proof.
  induction cs as [| c cs IH]; intros t ls t' ls' Hi H; cbn [run] in H.
  - apply ret_ok_inv in H as [<- _]. assumption.
  - bind_inv H. eapply IH; [| eassumption]. eapply step_invariant; eauto.
Qed.

(** Every state of a mounted timer satisfies the invariant. *)
Lemma session_invariant cs ls0 t ls :
  session tz cs ls0 = (Ok t, ls) -> timerInvariant t.
Proof.
  unfold session. intros H. bind_inv H.
  eapply run_invariant; [| eassumption]. eapply mount_invariant; eauto.
Qed.

Lemma parses_readSessions (v : option (Item (list SessionData))) :
  parses v = true -> exists l, readSessions v = Ok l.
Proof. destruct v as [[[|? ?]|?]|]; cbn; eauto; discriminate. Qed.

Lemma parses_readStatistics (v : option (Item Json.Statistics)) :
  parses v = true -> exists st, readStatistics v = Ok st.
Proof. destruct v as [[[|? ?]|?]|]; cbn; eauto; discriminate. Qed.

Lemma saveSession_eq now uuid session ls l st :
  readSessions (pomodoro_sessions ls) = Ok l ->
  readStatistics (pomodoro_statistics ls) = Ok st ->
  exists ls',
    saveSession tz now uuid session ls = (Ok tt, ls') /\
    pomodoro_sessions ls' = Some (Doc (l ++ [mkSessionData uuid session])) /\
    pomodoro_statistics ls' =
      Some (Doc (jsonOfStatistics (updatedStatistics tz now session st))).
Proof.
  intros Hl Hst. unfold saveSession, bind.
  rewrite getSessions_eq, Hl. cbn [safe_setItem].
  erewrite updateStatistics_eq.
  - eexists. split; [reflexivity |]. destruct ls; split; reflexivity.
  - destruct ls; cbn in *. now rewrite readStatistics_init.
Qed.

(** [handlePhaseComplete] returns whenever the history and the statistics
    can be read, and appends exactly one record to the history (none when
    no session start time is set). *)
Lemma handlePhaseComplete_records now uuid t ls l st :
  readSessions (pomodoro_sessions ls) = Ok l ->
  readStatistics (pomodoro_statistics ls) = Ok st ->
  exists t1 ls1,
    handlePhaseComplete tz now uuid t ls = (Ok t1, ls1) /\
    readSessions (pomodoro_sessions ls1) =
    Ok match sessionStartTime t with
       | Some start =>
           l ++ [mkSessionData uuid
                   (mkSessionInput start now (currentPhase (state t)) true
                      (phaseSeconds (config t) (currentPhase (state t))))]
       | None => l
       end.
Proof.
  intros Hl Hst. unfold handlePhaseComplete, saveCompletedSession, bind.
  cbn [sessionStartTime setIsTransitioning config state].
  destruct (sessionStartTime t) as [start |].
  - destruct (saveSession_eq now uuid
                (mkSessionInput start now (currentPhase (state t)) true
                   (phaseSeconds (config t) (currentPhase (state t))))
                ls l st Hl Hst) as (ls' & -> & Hs & Hst').
    rewrite getStatistics_eq, Hst'. cbn [readStatistics ret].
    do 2 eexists. split; [reflexivity |].
    cbn [pomodoro_sessions initialized]. now rewrite readSessions_init, Hs.
  - cbn [ret]. do 2 eexists. split; [reflexivity | assumption].
Qed.

(** C5. In every state a mounted timer can reach, [timeRemaining] is at
    least 0.  A tick with [timeRemaining > 0] takes exactly 1 off and
    changes nothing else.  A tick at [timeRemaining = 0] runs
    [handlePhaseComplete] once: it returns whenever the history and the
    statistics can be read, [timeRemaining] stays 0, the transition flag is
    set, exactly one callback is scheduled, and any further tick before
    that callback runs does nothing.  No tick does anything while a
    transition is in progress. *)
Theorem C5_countdown cs ls0 t ls now uuid :
  session tz cs ls0 = (Ok t, ls) ->
  0 <= timeRemaining (state t) /\
  (tickEnabled t = true -> 0 < timeRemaining (state t) ->
   tick tz now uuid t ls =
     (Ok (mkComponent (config t) (stats t)
            (mkTimerState (isRunning (state t)) (isPaused (state t))
               (currentPhase (state t)) (timeRemaining (state t) - 1)
               (completedSessions (state t)))
            (isTransitioning t) (isMuted t) (sessionStartTime t) (timeouts t)),
      ls)) /\
  (tickEnabled t = true -> timeRemaining (state t) = 0 ->
   (parses (pomodoro_sessions ls) = true ->
    parses (pomodoro_statistics ls) = true ->
    exists t1 ls1, tick tz now uuid t ls = (Ok t1, ls1)) /\
   (forall t1 ls1,
      tick tz now uuid t ls = (Ok t1, ls1) ->
      timeRemaining (state t1) = 0 /\
      isTransitioning t1 = true /\
      timeouts t1 =
        timeouts t ++
        [PhaseTimeout (nextPhase (state t) (config t))
           (nextSessionCount (state t)) (config t)] /\
      forall now' uuid' ls', tick tz now' uuid' t1 ls' = (Ok t1, ls'))) /\
  (isTransitioning t = true -> tick tz now uuid t ls = (Ok t, ls)).
Proof.
  intros Hreach.
  destruct (session_invariant _ _ _ _ Hreach) as (_ & Hr & _).
  assert (forall now' uuid' ls',
            tickEnabled t = true -> timeRemaining (state t) = 0 ->
            tick tz now' uuid' t ls' = handlePhaseComplete tz now' uuid' t ls')
    as Hzero by (intros ? ? ? He Hz; unfold tick; now rewrite He, Hz).
  assert (forall t', isTransitioning t' = true ->
            forall now' uuid' ls', tick tz now' uuid' t' ls' = (Ok t', ls'))
    as Hidle.
  { intros t' Htr now' uuid' ls'. unfold tick, tickEnabled.
    now rewrite Htr, andb_false_r. }
  split; [exact Hr |]. split; [| split].
  - intros He Hpos. unfold tick. rewrite He.
    destruct (Z.leb_spec (timeRemaining (state t)) 0); [lia | reflexivity].
  - intros He Hz. split.
    + intros Hs Hst. rewrite (Hzero _ _ _ He Hz).
      destruct (parses_readSessions _ Hs) as [l Hl].
      destruct (parses_readStatistics _ Hst) as [st Hst'].
      destruct (handlePhaseComplete_records now uuid t ls l st Hl Hst')
        as (t1 & ls1 & E & _).
      eauto.
    + intros t1 ls1 Ht. rewrite (Hzero _ _ _ He Hz) in Ht.
      apply handlePhaseComplete_inv in Ht.
      destruct Ht as (_ & Htr & _ & _ & Hto & _ & _ & _ & Hrem).
      repeat split; [congruence | assumption | assumption | now apply Hidle].
  - intros Htr. now apply Hidle.
Qed.

End Countdown.

(** C5 on a timer mounted on an empty store (12 second focus phase),
    started and ticked twelve times: the countdown is at 0, and the next tick
    completes the phase. *)
Lemma C5_countdown_witness :
  exists t ls,
    session europeLondon
      (Start 1730073900000 :: repeat (Tick mondayNight "id-0") 12)
      emptyStorage = (Ok t, ls) /\
    timeRemaining (state t) = 0 /\
    0 <= timeRemaining (state t) /\
    exists t1 ls1, tick europeLondon mondayNight "id-1" t ls = (Ok t1, ls1).
Proof.
  do 2 eexists. split; [vm_compute; reflexivity |]. split; [reflexivity |].
  match goal with
  | |- _ /\ exists t1 ls1, tick _ _ _ ?t ?ls = _ =>
      pose proof (C5_countdown europeLondon
                    (Start 1730073900000 :: repeat (Tick mondayNight "id-0") 12)
                    emptyStorage t ls mondayNight "id-1" eq_refl)
        as (Hge & _ & Hzero & _)
  end.
  split; [exact Hge |].
  destruct (Hzero eq_refl eq_refl) as [Hreturns _].
  exact (Hreturns eq_refl eq_refl).
Defined.

(* ------------------------------------------------------------------ *)
(** ** The auto-start preferences are never read *)

Lemma sameOutcome_refl_result {A} (r : result A) (ls1 ls2 : LocalStorage) :
  sameButAutoStart ls1 ls2 -> sameOutcome eq (r, ls1) (r, ls2).
Proof. intros H. split; [exact H | destruct r; reflexivity]. Qed.

Lemma blind_ret {A} (rel : A -> A -> Prop) (a b : A) :
  rel a b -> blind rel (ret a) (ret b).
Proof. intros H ls1 ls2 Hs. split; [exact Hs | exact H]. Qed.

Lemma blind_bind {A B} (rel : A -> A -> Prop) (rel' : B -> B -> Prop)
  (m1 m2 : M A) (k1 k2 : A -> M B) :
  blind rel m1 m2 ->
  (forall a b, rel a b -> blind rel' (k1 a) (k2 b)) ->
  blind rel' (bind m1 k1) (bind m2 k2).
Proof.
  intros Hm Hk ls1 ls2 Hs. unfold bind.
  destruct (Hm ls1 ls2 Hs) as [Hs' Hr].
  destruct (m1 ls1) as [[a | e1] ls1'], (m2 ls2) as [[b | e2] ls2'];
    cbn in *; try contradiction.
  - apply Hk; assumption.
  - split; assumption.
Qed.

Lemma initialized_sameButAutoStart ls1 ls2 :
  sameButAutoStart ls1 ls2 ->
  sameButAutoStart (initialized ls1) (initialized ls2).
Proof.
  destruct ls1 as [p1 s1 st1 c1], ls2 as [p2 s2 st2 c2].
  unfold sameButAutoStart; cbn. intros (-> & -> & -> & Hp).
  repeat split.
  destruct p1 as [[[|? ?]|d1]|], p2 as [[[|? ?]|d2]|]; cbn in *;
    try discriminate; try (inversion Hp; subst); auto; repeat split.
Qed.

Lemma mergePreferences_agree (p1 p2 : Json.Preferences) :
  documentsAgree p1 p2 ->
  preferencesAgree (mergePreferences p1) (mergePreferences p2).
Proof.
  intros (Ht & Hn & Hs). unfold preferencesAgree, mergePreferences; cbn.
  rewrite Ht, Hn, Hs. auto.
Qed.

Lemma jsonOfPreferences_agree (p1 p2 : UserPreferences) :
  preferencesAgree p1 p2 ->
  documentsAgree (jsonOfPreferences p1) (jsonOfPreferences p2).
Proof.
  intros (Ht & Hn & Hs). unfold documentsAgree, jsonOfPreferences; cbn.
  rewrite Ht, Hn, Hs. auto.
Qed.

Lemma blind_getPreferences : blind preferencesAgree getPreferences getPreferences.
Proof.
  intros ls1 ls2 Hs. rewrite !getPreferences_eq.
  split; [now apply initialized_sameButAutoStart |]. cbn [fst].
  destruct Hs as (_ & _ & _ & Hp).
  destruct (pomodoro_preferences ls1) as [[[|? ?]|d1]|],
           (pomodoro_preferences ls2) as [[[|? ?]|d2]|]; cbn in *;
    try discriminate; try (inversion Hp; subst); auto;
    try (repeat split; fail).
  now apply mergePreferences_agree.
Qed.

Lemma blind_getTimerConfig : blind eq getTimerConfig getTimerConfig.
Proof.
  intros ls1 ls2 Hs. rewrite !getTimerConfig_eq.
  destruct Hs as (Hs1 & Hs2 & Hs3 & Hs4). rewrite Hs3.
  apply sameOutcome_refl_result, initialized_sameButAutoStart.
  exact (conj Hs1 (conj Hs2 (conj Hs3 Hs4))).
Qed.

Lemma blind_getSessions : blind eq getSessions getSessions.
Proof.
  intros ls1 ls2 Hs. rewrite !getSessions_eq.
  destruct Hs as (Hs1 & Hs2 & Hs3 & Hs4). rewrite Hs1.
  apply sameOutcome_refl_result, initialized_sameButAutoStart.
  exact (conj Hs1 (conj Hs2 (conj Hs3 Hs4))).
Qed.

Lemma blind_getStatistics : blind eq getStatistics getStatistics.
Proof.
  intros ls1 ls2 Hs. rewrite !getStatistics_eq.
  destruct Hs as (Hs1 & Hs2 & Hs3 & Hs4). rewrite Hs2.
  apply sameOutcome_refl_result, initialized_sameButAutoStart.
  exact (conj Hs1 (conj Hs2 (conj Hs3 Hs4))).
Qed.

Lemma blind_savePreferences (p1 p2 : Json.Preferences) :
  documentsAgree p1 p2 -> blind eq (savePreferences p1) (savePreferences p2).
Proof.
  intros Hp ls1 ls2 (Hs1 & Hs2 & Hs3 & _).
  split; [| reflexivity].
  unfold sameButAutoStart; cbn. repeat (split; [assumption |]).
  now apply jsonOfPreferences_agree, mergePreferences_agree.
Qed.

Lemma blind_setItem_sessions (v : Item (list SessionData)) :
  blind eq (safe_setItem SESSIONS v) (safe_setItem SESSIONS v).
Proof.
  intros ls1 ls2 (Hs1 & Hs2 & Hs3 & Hs4).
  split; [| reflexivity]. repeat split; assumption.
Qed.

Lemma blind_setItem_statistics (v : Item Json.Statistics) :
  blind eq (safe_setItem STATISTICS v) (safe_setItem STATISTICS v).
Proof.
  intros ls1 ls2 (Hs1 & Hs2 & Hs3 & Hs4).
  split; [| reflexivity]. repeat split; assumption.
Qed.

Lemma blind_saveTimerConfig (c : TimerConfig) :
  blind eq (saveTimerConfig c) (saveTimerConfig c).
Proof.
  intros ls1 ls2 (Hs1 & Hs2 & Hs3 & Hs4).
  split; [| reflexivity]. repeat split; assumption.
Qed.

Section AutoStart.

Variable tz : TimeZone.

Lemma blind_updateStatistics now s :
  blind eq (updateStatistics tz now s) (updateStatistics tz now s).
Proof.
  unfold updateStatistics.
  eapply blind_bind; [apply blind_getStatistics |].
  intros st ? <-. apply blind_setItem_statistics.
Qed.

Lemma blind_saveSession now uuid s :
  blind eq (saveSession tz now uuid s) (saveSession tz now uuid s).
Proof.
  unfold saveSession.
  eapply blind_bind; [apply blind_getSessions |]. intros l ? <-.
  eapply blind_bind; [apply blind_setItem_sessions |]. intros _ _ _.
  apply blind_updateStatistics.
Qed.

Lemma blind_saveCompletedSession now uuid t :
  blind eq (saveCompletedSession tz now uuid t)
    (saveCompletedSession tz now uuid t).
Proof.
  unfold saveCompletedSession.
  destruct (sessionStartTime t); [| now apply blind_ret].
  eapply blind_bind; [apply blind_saveSession |]. intros _ _ _.
  eapply blind_bind; [apply blind_getStatistics |]. intros st ? <-.
  now apply blind_ret.
Qed.

Lemma blind_handlePhaseComplete now uuid t :
  blind eq (handlePhaseComplete tz now uuid t)
    (handlePhaseComplete tz now uuid t).
Proof.
  unfold handlePhaseComplete.
  eapply blind_bind; [apply blind_saveCompletedSession |]. intros t' ? <-.
  now apply blind_ret.
Qed.

Lemma blind_tick now uuid t :
  blind eq (tick tz now uuid t) (tick tz now uuid t).
Proof.
  unfold tick.
  destruct (tickEnabled t); [| now apply blind_ret].
  destruct (timeRemaining (state t) <=? 0); [| now apply blind_ret].
  apply blind_handlePhaseComplete.
Qed.

Lemma blind_handleMuteToggle t :
  blind eq (handleMuteToggle t) (handleMuteToggle t).
Proof.
  unfold handleMuteToggle.
  eapply blind_bind; [apply blind_getPreferences |].
  intros p1 p2 (Ht & Hn & _).
  eapply blind_bind; [| intros _ _ _; now apply blind_ret].
  apply blind_savePreferences. unfold documentsAgree; cbn.
  rewrite Ht, Hn. auto.
Qed.

Lemma blind_handleSettingsChange t :
  blind eq (handleSettingsChange t) (handleSettingsChange t).
Proof.
  unfold handleSettingsChange.
  eapply blind_bind; [apply blind_getTimerConfig |]. intros c ? <-.
  eapply blind_bind; [apply blind_getPreferences |].
  intros p1 p2 (_ & _ & Hs). rewrite Hs. now apply blind_ret.
Qed.

Lemma blind_step c t : blind eq (step tz c t) (step tz c t).
Proof.
  destruct c; cbn [step]; try (now apply blind_ret).
  - apply blind_tick.
  - apply blind_handleMuteToggle.
  - apply blind_handleSettingsChange.
  - eapply blind_bind; [apply blind_saveTimerConfig |]. intros _ _ _.
    apply blind_handleSettingsChange.
  - eapply blind_bind;
      [apply blind_savePreferences; repeat split |]. intros _ _ _.
    apply blind_handleSettingsChange.
Qed.

Lemma blind_run cs : forall t, blind eq (run tz cs t) (run tz cs t).
Proof.
  induction cs as [| c cs IH]; intros t; cbn [run].
  - now apply blind_ret.
  - eapply blind_bind; [apply blind_step |]. intros t' ? <-. apply IH.
Qed.

Lemma blind_mount : blind eq mount mount.
Proof.
  unfold mount.
  eapply blind_bind; [apply blind_getTimerConfig |]. intros config0 ? <-.
  eapply blind_bind; [apply blind_getStatistics |]. intros stats0 ? <-.
  eapply blind_bind; [apply blind_getTimerConfig |]. intros c1 ? <-.
  eapply blind_bind; [apply blind_getStatistics |]. intros st1 ? <-.
  eapply blind_bind; [apply blind_getPreferences |]. intros p0 p0' _.
  eapply blind_bind; [apply blind_getTimerConfig |]. intros c2 ? <-.
  eapply blind_bind; [apply blind_getPreferences |]. intros p p' (_ & _ & Hs).
  eapply blind_bind; [apply blind_getStatistics |]. intros st2 ? <-.
  rewrite Hs. now apply blind_ret.
Qed.

(** C10. Two runs of the same sequence of commands and ticks, on stores
    whose persisted preferences differ only in [autoStartBreaks] and
    [autoStartPomodoros], end alike: both raise the same exception, or both
    return the same component state (phase, running and paused flags, time
    remaining, completed sessions and all the rest), and the recorded
    session history and statistics are the same. *)
Theorem C10_auto_start_preferences_unread cs ls1 ls2 :
  sameButAutoStart ls1 ls2 ->
  fst (session tz cs ls1) = fst (session tz cs ls2) /\
  pomodoro_sessions (snd (session tz cs ls1)) =
  pomodoro_sessions (snd (session tz cs ls2)) /\
  pomodoro_statistics (snd (session tz cs ls1)) =
  pomodoro_statistics (snd (session tz cs ls2)).
Proof.
  intros Hs.
  assert (blind eq (session tz cs) (session tz cs)) as Hb.
  { unfold session. eapply blind_bind; [apply blind_mount |].
    intros t ? <-. apply blind_run. }
  destruct (Hb ls1 ls2 Hs) as ((Hse & Hst & _) & Hr).
  repeat split; try assumption.
  destruct (fst (session tz cs ls1)), (fst (session tz cs ls2));
    try contradiction; congruence.
Qed.

End AutoStart.

(** C10 on two stores with opposite auto-start preferences and a session
    that completes a focus phase, enters the break and toggles the sound. *)
Lemma C10_auto_start_preferences_unread_witness :
  sameButAutoStart autoStartOn autoStartOff /\
  pomodoro_preferences autoStartOn <> pomodoro_preferences autoStartOff /\
  fst (session europeLondon shortSession autoStartOn) =
  fst (session europeLondon shortSession autoStartOff) /\
  pomodoro_sessions (snd (session europeLondon shortSession autoStartOn)) =
  pomodoro_sessions (snd (session europeLondon shortSession autoStartOff)).
Proof.
  assert (sameButAutoStart autoStartOn autoStartOff) as Hs
    by (repeat split).
  split; [exact Hs |]. split; [discriminate |].
  destruct (C10_auto_start_preferences_unread europeLondon shortSession
              autoStartOn autoStartOff Hs) as (Hr & Hh & _).
  exact (conj Hr Hh).
Defined.

(* ------------------------------------------------------------------ *)
(** ** Instances on concrete stores *)

(** The round trip on a store holding only statistics. *)
Lemma export_import_roundtrip_witness :
  wellFormed sundayStorage /\
  exists backup ls1 ls2,
    exportData sundayStorage = (Ok backup, ls1) /\
    importData backup ls1 = (Ok true, ls2) /\
    fst (getStatistics ls2) = Ok sundayStatistics.
Proof.
  assert (wellFormed sundayStorage) as Hw by (repeat split).
  split; [exact Hw |].
  destruct (export_import_roundtrip sundayStorage Hw)
    as (backup & ls1 & ls2 & He & Hi & _ & _ & _ & Hst).
  exists backup, ls1, ls2. exact (conj He (conj Hi Hst)).
Defined.

(** The streak on a host in UTC: Sunday's streak of 5 becomes 6 on Monday. *)
Lemma updateStatistics_fixedZone_witness :
  exists ls' stats',
    updateStatistics (fixedZone 0) mondayNight mondaySession sundayStorage =
      (Ok tt, ls') /\
    fst (getStatistics ls') = Ok stats' /\
    Stats.lastSessionDate stats' = Some (sunday + 1) /\
    Stats.dailyStreak stats' = 6.
Proof.
  exact (updateStatistics_fixedZone 0 mondayNight mondaySession sundayStorage
           sundayStatistics eq_refl).
Defined.

(* ------------------------------------------------------------------ *)
(** ** Further properties of the persistence layer *)

(** [initializeStorage] returns, leaves every non-empty value as it is,
    puts the default document under every key that is absent or empty, so
    that afterwards no key is absent or empty, and running it again changes
    nothing. *)
Theorem initializeStorage_fills_only_missing (ls : LocalStorage) :
  exists ls',
    initializeStorage ls = (Ok tt, ls') /\
    (forall A (key : STORAGE_KEYS A),
       falsy (getItem key ls) = false -> getItem key ls' = getItem key ls) /\
    (falsy (getItem PREFERENCES ls) = true ->
     getItem PREFERENCES ls' =
       Some (Doc (jsonOfPreferences DEFAULT_PREFERENCES))) /\
    (falsy (getItem TIMER_CONFIG ls) = true ->
     getItem TIMER_CONFIG ls' = Some (Doc (jsonOfConfig DEFAULT_CONFIG))) /\
    (falsy (getItem SESSIONS ls) = true ->
     getItem SESSIONS ls' = Some (Doc [])) /\
    (falsy (getItem STATISTICS ls) = true ->
     getItem STATISTICS ls' =
       Some (Doc (jsonOfStatistics DEFAULT_STATISTICS))) /\
    (forall A (key : STORAGE_KEYS A), falsy (getItem key ls') = false) /\
    initializeStorage ls' = (Ok tt, ls').
Proof.
  exists (initialized ls). split; [apply initializeStorage_eq |].
  assert (initializeStorage (initialized ls) = (Ok tt, initialized ls)) as Hidem
    by (now rewrite initializeStorage_eq, initialized_idem).
  refine (conj _ (conj _ (conj _ (conj _ (conj _ (conj _ Hidem))))));
    clear Hidem; destruct ls as [p s st c]; unfold initialized, initSlot; cbn.
  - intros A key. destruct key; cbn; intros ->; reflexivity.
  - intros ->; reflexivity.
  - intros ->; reflexivity.
  - intros ->; reflexivity.
  - intros ->; reflexivity.
  - intros A key. destruct key; cbn;
      match goal with |- context [if falsy ?v then _ else _] =>
        destruct (falsy v) eqn:E; [reflexivity | exact E] end.
Qed.

(** Reading is harmless: the four readers leave the same store behind
    (the initialized one), and on it each of them answers what it answers
    on the original store. *)
Theorem readers_leave_answers_unchanged (ls : LocalStorage) :
  snd (getTimerConfig ls) = snd (getPreferences ls) /\
  snd (getSessions ls) = snd (getPreferences ls) /\
  snd (getStatistics ls) = snd (getPreferences ls) /\
  fst (getPreferences (snd (getPreferences ls))) = fst (getPreferences ls) /\
  fst (getTimerConfig (snd (getPreferences ls))) = fst (getTimerConfig ls) /\
  fst (getSessions (snd (getPreferences ls))) = fst (getSessions ls) /\
  fst (getStatistics (snd (getPreferences ls))) = fst (getStatistics ls).
Proof.
  rewrite !getPreferences_eq, !getTimerConfig_eq, !getSessions_eq,
    !getStatistics_eq. cbn [fst snd initialized pomodoro_preferences
    pomodoro_config pomodoro_sessions pomodoro_statistics].
  now rewrite readPreferences_init, readConfig_init, readSessions_init,
    readStatistics_init.
Qed.

(** [clearAllData] recovers from any store, malformed text included: it
    returns, leaves exactly the four default documents, and afterwards the
    readers answer the default preferences, the default configuration, the
    empty history and the default statistics. *)
Theorem clearAllData_restores_defaults (ls : LocalStorage) :
  exists ls',
    clearAllData ls = (Ok tt, ls') /\
    ls' = mkLocalStorage
            (Some (Doc (jsonOfPreferences DEFAULT_PREFERENCES)))
            (Some (Doc []))
            (Some (Doc (jsonOfStatistics DEFAULT_STATISTICS)))
            (Some (Doc (jsonOfConfig DEFAULT_CONFIG))) /\
    fst (getPreferences ls') = Ok DEFAULT_PREFERENCES /\
    fst (getTimerConfig ls') = Ok DEFAULT_CONFIG /\
    fst (getSessions ls') = Ok [] /\
    fst (getStatistics ls') = Ok DEFAULT_STATISTICS.
Proof.
  eexists. split; [reflexivity | repeat split].
Qed.

(** Whatever the store held (malformed preferences included),
    [getPreferences] after [savePreferences] returns the saved document
    completed with the defaults, hence the saved preferences themselves when
    every field was given; the other three readers answer as before. *)
Theorem savePreferences_then_get (ls : LocalStorage)
  (doc : Json.Preferences) (p : UserPreferences) :
  fst (getPreferences (snd (savePreferences doc ls))) =
    Ok (mergePreferences doc) /\
  fst (getPreferences (snd (savePreferences (jsonOfPreferences p) ls))) = Ok p /\
  fst (getTimerConfig (snd (savePreferences doc ls))) = fst (getTimerConfig ls) /\
  fst (getSessions (snd (savePreferences doc ls))) = fst (getSessions ls) /\
  fst (getStatistics (snd (savePreferences doc ls))) = fst (getStatistics ls).
Proof.
  rewrite !getPreferences_eq, !getTimerConfig_eq, !getSessions_eq,
    !getStatistics_eq.
  destruct ls; cbn. now rewrite !mergePreferences_json.
Qed.

Lemma Qmax_floor_same (v : Q) : (1 # 10 <= v)%Q -> (Qmax (1 # 10) v == v)%Q.
Proof.
  intros H. destruct (Qlt_le_dec (1 # 10) v) as [Hlt | Hle].
  - now rewrite (proj2 (Qmax_floor_cases (1 # 10) v) Hlt).
  - rewrite (proj1 (Qmax_floor_cases (1 # 10) v) Hle).
    apply Qle_antisym; assumption.
Qed.

(** Whatever the store held, [getTimerConfig] after [saveTimerConfig]
    returns the clamped configuration; of two saves only the last counts;
    a configuration with durations of at least 0.1 and a cycle length of at
    least 1 is read back with the numbers it was saved with; and the other
    three readers answer as before. *)
Theorem saveTimerConfig_then_get (ls : LocalStorage) (c0 c : TimerConfig) :
  inRange c ->
  (exists c',
     fst (getTimerConfig (snd (saveTimerConfig c ls))) = Ok c' /\
     sameConfig c' c) /\
  fst (getTimerConfig (snd (saveTimerConfig c (snd (saveTimerConfig c0 ls))))) =
    fst (getTimerConfig (snd (saveTimerConfig c ls))) /\
  fst (getPreferences (snd (saveTimerConfig c ls))) = fst (getPreferences ls) /\
  fst (getSessions (snd (saveTimerConfig c ls))) = fst (getSessions ls) /\
  fst (getStatistics (snd (saveTimerConfig c ls))) = fst (getStatistics ls).
Proof.
  intros (Hf & Hb & Hl & Hn).
  rewrite !getPreferences_eq, !getTimerConfig_eq, !getSessions_eq,
    !getStatistics_eq.
  destruct ls; cbn. rewrite clampedConfig_validated.
  split; [| repeat split].
  exists (validatedConfig c). split; [reflexivity |].
  unfold sameConfig, validatedConfig;
    cbn [focusDuration breakDuration longBreakDuration sessionsUntilLongBreak].
  repeat split; try (now apply Qmax_floor_same). now apply Z.max_r.
Qed.

Lemma saveTimerConfig_then_get_witness :
  inRange classicConfig /\
  exists c',
    fst (getTimerConfig (snd (saveTimerConfig classicConfig corruptStorage))) =
      Ok c' /\
    sameConfig c' classicConfig.
Proof.
  assert (inRange classicConfig) as H by (repeat split; vm_compute; discriminate).
  split; [exact H |].
  exact (proj1 (saveTimerConfig_then_get corruptStorage DEFAULT_CONFIG
                  classicConfig H)).
Defined.

(** *** Recording a session *)

(** On a store whose history and statistics can be read, [saveSession]
    returns; afterwards the history is the previous one followed by the new
    record (carrying the given id), the statistics are the updated ones, and
    preferences and configuration read as before. *)
Theorem saveSession_appends tz now uuid (session : SessionInput)
  (ls : LocalStorage) (history : list SessionData) (stats : Stats.Statistics) :
  fst (getSessions ls) = Ok history ->
  fst (getStatistics ls) = Ok stats ->
  exists ls',
    saveSession tz now uuid session ls = (Ok tt, ls') /\
    fst (getSessions ls') = Ok (history ++ [mkSessionData uuid session]) /\
    fst (getStatistics ls') = Ok (updatedStatistics tz now session stats) /\
    fst (getPreferences ls') = fst (getPreferences ls) /\
    fst (getTimerConfig ls') = fst (getTimerConfig ls).
Proof.
  rewrite getSessions_eq, getStatistics_eq. cbn [fst]. intros Hh Hst.
  unfold saveSession, bind. rewrite getSessions_eq, Hh. cbn [safe_setItem].
  rewrite (updateStatistics_eq tz now session _ stats)
    by (destruct ls; cbn in *; now rewrite readStatistics_init).
  eexists. split; [reflexivity |].
  rewrite !getSessions_eq, !getStatistics_eq, !getPreferences_eq,
    !getTimerConfig_eq.
  destruct ls; cbn.
  now rewrite mergeStatistics_json, !readPreferences_init, !readConfig_init.
Qed.

Lemma saveSession_appends_witness :
  exists ls',
    saveSession europeLondon mondayNight "id-9" mondaySession sundayStorage =
      (Ok tt, ls') /\
    fst (getSessions ls') = Ok [mkSessionData "id-9" mondaySession].
Proof.
  destruct (saveSession_appends europeLondon mondayNight "id-9" mondaySession
              sundayStorage [] sundayStatistics eq_refl eq_refl)
    as (ls' & Hs & Hh & _).
  exists ls'. exact (conj Hs Hh).
Defined.

(** [saveSession] is not atomic: when the history can be read but the
    statistics hold malformed text, it raises [SyntaxError] after the new
    record has been persisted, and the statistics text is left as it was. *)
Theorem saveSession_raises_after_appending tz now uuid (session : SessionInput)
  (ls : LocalStorage) (history : list SessionData) :
  fst (getSessions ls) = Ok history ->
  parses (pomodoro_statistics ls) = false ->
  fst (saveSession tz now uuid session ls) = Throw SyntaxError /\
  fst (getSessions (snd (saveSession tz now uuid session ls))) =
    Ok (history ++ [mkSessionData uuid session]) /\
  pomodoro_statistics (snd (saveSession tz now uuid session ls)) =
    pomodoro_statistics ls.
Proof.
  rewrite getSessions_eq. cbn [fst]. intros Hh Hst.
  unfold saveSession, updateStatistics, bind.
  rewrite getSessions_eq, Hh. cbn [safe_setItem]. rewrite getStatistics_eq.
  destruct ls as [p s [[[|a x]|d]|] c]; cbn in Hst; try discriminate.
  cbn. rewrite getSessions_eq. cbn. auto.
Qed.

Lemma saveSession_raises_after_appending_witness :
  fst (saveSession europeLondon mondayNight "id-9" mondaySession
         historyWithCorruptStatistics) = Throw SyntaxError /\
  fst (getSessions
         (snd (saveSession europeLondon mondayNight "id-9" mondaySession
                 historyWithCorruptStatistics))) =
    Ok [oneSession; mkSessionData "id-9" mondaySession].
Proof.
  destruct (saveSession_raises_after_appending europeLondon mondayNight "id-9"
              mondaySession historyWithCorruptStatistics [oneSession]
              eq_refl eq_refl) as (Hr & Hh & _).
  exact (conj Hr Hh).
Defined.

(** [updateStatistics], in any time zone: the duration goes to
    [totalFocusTime] for a focus session and to [totalBreakTime] for a break
    or long break, never to both; [completedSessions] grows by one exactly
    for a completed session; and with a duration that is not negative no
    total ever decreases. *)
Theorem updateStatistics_totals tz now (session : SessionInput)
  (ls : LocalStorage) (stats : Stats.Statistics) :
  fst (getStatistics ls) = Ok stats ->
  exists stats',
    fst (getStatistics (snd (updateStatistics tz now session ls))) = Ok stats' /\
    fst (updateStatistics tz now session ls) = Ok tt /\
    Stats.totalFocusTime stats' + Stats.totalBreakTime stats' =
      Stats.totalFocusTime stats + Stats.totalBreakTime stats +
      duration session /\
    (phase session = focus ->
     Stats.totalBreakTime stats' = Stats.totalBreakTime stats) /\
    (phase session <> focus ->
     Stats.totalFocusTime stats' = Stats.totalFocusTime stats) /\
    Stats.completedSessions stats' =
      Stats.completedSessions stats + (if completed session then 1 else 0) /\
    (0 <= duration session ->
     Stats.totalFocusTime stats <= Stats.totalFocusTime stats' /\
     Stats.totalBreakTime stats <= Stats.totalBreakTime stats' /\
     Stats.completedSessions stats <= Stats.completedSessions stats').
Proof.
  rewrite getStatistics_eq. cbn [fst]. intros H.
  rewrite (updateStatistics_eq tz now session ls stats H).
  exists (updatedStatistics tz now session stats).
  rewrite getStatistics_eq. cbn. rewrite mergeStatistics_json.
  split; [reflexivity |]. split; [reflexivity |].
  unfold updatedStatistics; cbn.
  destruct (phase session), (completed session); cbn;
    repeat split; intros; try congruence; lia.
Qed.

Lemma updateStatistics_totals_witness :
  exists stats',
    fst (getStatistics
           (snd (updateStatistics europeLondon mondayNight mondaySession
                   sundayStorage))) = Ok stats' /\
    Stats.totalFocusTime stats' = 9000 /\
    Stats.totalBreakTime stats' = 1200 /\
    Stats.completedSessions stats' = 10.
Proof.
  destruct (updateStatistics_totals europeLondon mondayNight mondaySession
              sundayStorage sundayStatistics eq_refl)
    as (stats' & Hs & _).
  exists stats'. split; [exact Hs |].
  assert (Ok stats' =
          Ok (updatedStatistics europeLondon mondayNight mondaySession
                sundayStatistics)) as E by (rewrite <- Hs; reflexivity).
  inversion E. repeat split.
Defined.

(** *** Importing a backup *)

(** [importData] applies each section on its own: a section that is
    present is read back afterwards (preferences completed with the
    defaults, configuration clamped, history and statistics as given), and a
    section that is absent leaves the text under its key untouched. *)
Theorem importData_applies_sections (data : Backup) (ls : LocalStorage) :
  exists ls',
    importData (Doc data) ls = (Ok true, ls') /\
    match preferences data with
    | Some p => fst (getPreferences ls') = Ok (mergePreferences p)
    | None => pomodoro_preferences ls' = pomodoro_preferences ls
    end /\
    match timerConfig data with
    | Some c => fst (getTimerConfig ls') = Ok (validatedConfig c)
    | None => pomodoro_config ls' = pomodoro_config ls
    end /\
    match sessions data with
    | Some h => fst (getSessions ls') = Ok h
    | None => pomodoro_sessions ls' = pomodoro_sessions ls
    end /\
    match statistics data with
    | Some st => fst (getStatistics ls') = Ok (mergeStatistics st)
    | None => pomodoro_statistics ls' = pomodoro_statistics ls
    end.
Proof.
  destruct data as [[p|] [c|] [h|] [st|]], ls as [lp lh lst lc];
    eexists; (split; [reflexivity |]);
    rewrite ?getPreferences_eq, ?getTimerConfig_eq, ?getSessions_eq,
      ?getStatistics_eq; cbn;
    rewrite ?mergePreferences_json, ?clampedConfig_validated;
    repeat split.
Qed.

(** A backup restores anywhere: importing what [exportData] returned for
    one store into any other store, malformed or not, reports success, and
    afterwards the four readers answer what they answered on the store the
    backup was taken from. *)
Theorem backup_restores_on_any_store (source target : LocalStorage)
  (backup : Item Backup) (ls1 : LocalStorage) :
  exportData source = (Ok backup, ls1) ->
  exists ls2,
    importData backup target = (Ok true, ls2) /\
    fst (getPreferences ls2) = fst (getPreferences source) /\
    fst (getTimerConfig ls2) = fst (getTimerConfig source) /\
    fst (getSessions ls2) = fst (getSessions source) /\
    fst (getStatistics ls2) = fst (getStatistics source).
Proof.
  unfold exportData. intros H. bind_inv H. apply ret_ok_inv in H as [<- _].
  match goal with
  | Hp : getPreferences _ = _, Hc : getTimerConfig _ = _,
    Hs : getSessions _ = _, Hst : getStatistics _ = _ |- _ =>
      rewrite getPreferences_eq in Hp; rewrite getTimerConfig_eq in Hc;
      rewrite getSessions_eq in Hs; rewrite getStatistics_eq in Hst;
      inversion Hp as [[Ep E1]]; subst; clear Hp;
      inversion Hc as [[Ec E2]]; rewrite initialized_idem in E2; subst;
      clear Hc;
      inversion Hs as [[Es E3]]; rewrite initialized_idem in E3; subst;
      clear Hs;
      inversion Hst as [[Est E4]]; clear Hst E4
  end.
  cbn [pomodoro_config pomodoro_sessions pomodoro_statistics initialized] in *.
  rewrite readConfig_init in Ec. rewrite readSessions_init in Es.
  rewrite readStatistics_init in Est.
  eexists. split; [reflexivity |].
  rewrite !getPreferences_eq, !getTimerConfig_eq, !getSessions_eq,
    !getStatistics_eq.
  destruct target; cbn.
  rewrite Ep, Ec, Es, Est, !mergePreferences_json, mergeStatistics_json,
    clampedConfig_validated, (readConfig_fixed _ _ Ec).
  repeat split.
Qed.

Lemma backup_restores_on_any_store_witness :
  exists backup ls1 ls2,
    exportData sundayStorage = (Ok backup, ls1) /\
    importData backup corruptStorage = (Ok true, ls2) /\
    fst (getStatistics ls2) = Ok sundayStatistics /\
    fst (getSessions ls2) = Ok [].
Proof.
  do 2 eexists.
  assert (exists ls2,
            importData _ corruptStorage = (Ok true, ls2) /\
            fst (getPreferences ls2) = fst (getPreferences sundayStorage) /\
            fst (getTimerConfig ls2) = fst (getTimerConfig sundayStorage) /\
            fst (getSessions ls2) = fst (getSessions sundayStorage) /\
            fst (getStatistics ls2) = fst (getStatistics sundayStorage))
    as (ls2 & Hi & _ & _ & Hh & Hst)
    by exact (backup_restores_on_any_store sundayStorage corruptStorage _ _
                eq_refl).
  exists ls2. exact (conj eq_refl (conj Hi (conj Hst Hh))).
Defined.

(* ------------------------------------------------------------------ *)
(** ** Further properties of the timer component *)

(** On a store whose preferences, configuration and statistics can be read
    (the history is not looked at), mounting returns an idle timer in the
    focus phase: not running, not paused, no transition and no callback
    pending, no session start time, the countdown at the configured focus
    duration (at least 6 seconds), the session count that of the statistics,
    and muted exactly when the sound preference is off. *)
Theorem mount_initial_state (ls : LocalStorage) (c : TimerConfig)
  (p : UserPreferences) (st : Stats.Statistics) :
  fst (getTimerConfig ls) = Ok c ->
  fst (getPreferences ls) = Ok p ->
  fst (getStatistics ls) = Ok st ->
  exists ls',
    mount ls =
      (Ok {| config := c;
             stats := st;
             state :=
               {| isRunning := false; isPaused := false;
                  currentPhase := focus;
                  timeRemaining := Math_round (focusDuration c * 60)%Q;
                  completedSessions := Stats.completedSessions st |};
             isTransitioning := false;
             isMuted := negb (sound p);
             sessionStartTime := None;
             timeouts := [] |}, ls') /\
    6 <= Math_round (focusDuration c * 60)%Q /\
    fst (getSessions ls') = fst (getSessions ls).
Proof.
  rewrite getTimerConfig_eq, getPreferences_eq, getStatistics_eq. cbn [fst].
  intros Hc Hp Hst.
  assert (forall v, readConfig (initSlot (jsonOfConfig DEFAULT_CONFIG) v) =
                    readConfig v) as Ic by apply readConfig_init.
  exists (initialized ls). split; [| split].
  - unfold mount, bind.
    rewrite !getTimerConfig_eq, Hc, !getStatistics_eq, !initialized_idem.
    cbn [pomodoro_statistics pomodoro_config pomodoro_preferences initialized].
    rewrite !readStatistics_init, Hst, !getTimerConfig_eq, !initialized_idem.
    cbn [pomodoro_statistics pomodoro_config pomodoro_preferences initialized].
    rewrite !readConfig_init, Hc, !getStatistics_eq, !initialized_idem.
    cbn [pomodoro_statistics pomodoro_config pomodoro_preferences initialized].
    rewrite !readStatistics_init, Hst, !getPreferences_eq, !initialized_idem.
    cbn [pomodoro_statistics pomodoro_config pomodoro_preferences initialized].
    rewrite !readPreferences_init, Hp, !getTimerConfig_eq, !initialized_idem.
    cbn [pomodoro_statistics pomodoro_config pomodoro_preferences initialized].
    rewrite !readConfig_init, Hc, !getPreferences_eq, !initialized_idem.
    cbn [pomodoro_statistics pomodoro_config pomodoro_preferences initialized].
    rewrite !readPreferences_init, Hp, !getStatistics_eq, !initialized_idem.
    cbn [pomodoro_statistics pomodoro_config pomodoro_preferences initialized].
    rewrite !readStatistics_init, Hst. reflexivity.
  - assert (1 # 10 <= focusDuration c)%Q as Hf.
    { destruct (pomodoro_config ls) as [[[|a x]|j]|]; cbn in Hc;
        inversion Hc; subst; cbn; try apply Qmax_floor_le; discriminate. }
    unfold Math_round. change 6 with (Qfloor 6).
    apply Qfloor_resp_le. lra.
  - rewrite !getSessions_eq. cbn. now rewrite readSessions_init.
Qed.

Lemma mount_initial_state_witness :
  exists ls',
    mount sundayStorage =
      (Ok {| config := DEFAULT_CONFIG;
             stats := sundayStatistics;
             state :=
               {| isRunning := false; isPaused := false;
                  currentPhase := focus; timeRemaining := 12;
                  completedSessions := 9 |};
             isTransitioning := false;
             isMuted := false;
             sessionStartTime := None;
             timeouts := [] |}, ls').
Proof.
  destruct (mount_initial_state sundayStorage DEFAULT_CONFIG
              DEFAULT_PREFERENCES sundayStatistics eq_refl eq_refl eq_refl)
    as (ls' & Hm & _).
  exists ls'. exact Hm.
Defined.

(** A settings change, on a store whose configuration and preferences can
    be read: the component takes the stored configuration and sound
    preference; a running (or paused) timer keeps its countdown, a timer
    that is not running gets the focus duration whatever its current phase
    is; phase, flags, session count, start time, pending callbacks and
    statistics stay as they are. *)
Theorem handleSettingsChange_effect (t : Component) (ls : LocalStorage)
  (c : TimerConfig) (p : UserPreferences) :
  fst (getTimerConfig ls) = Ok c ->
  fst (getPreferences ls) = Ok p ->
  exists t' ls',
    handleSettingsChange t ls = (Ok t', ls') /\
    config t' = c /\
    isMuted t' = negb (sound p) /\
    timeRemaining (state t') =
      (if isRunning (state t) then timeRemaining (state t)
       else Math_round (focusDuration c * 60)%Q) /\
    currentPhase (state t') = currentPhase (state t) /\
    isRunning (state t') = isRunning (state t) /\
    isPaused (state t') = isPaused (state t) /\
    completedSessions (state t') = completedSessions (state t) /\
    isTransitioning t' = isTransitioning t /\
    sessionStartTime t' = sessionStartTime t /\
    timeouts t' = timeouts t /\
    stats t' = stats t.
Proof.
  rewrite getTimerConfig_eq, getPreferences_eq. cbn [fst]. intros Hc Hp.
  unfold handleSettingsChange, bind.
  rewrite getTimerConfig_eq, Hc, getPreferences_eq, initialized_idem.
  cbn [pomodoro_preferences initialized]. rewrite readPreferences_init, Hp.
  do 2 eexists. split; [reflexivity |].
  destruct (isRunning (state t)) eqn:E; cbn; repeat split; exact E.
Qed.

Lemma handleSettingsChange_effect_witness :
  exists t' ls',
    handleSettingsChange pausedBreak emptyStorage = (Ok t', ls') /\
    timeRemaining (state t') = 120 /\
    exists t'' ls'',
      handleSettingsChange (resetTimeout break classicConfig pausedBreak)
        emptyStorage = (Ok t'', ls'') /\
      currentPhase (state t'') = break /\
      timeRemaining (state t'') = 12.
Proof.
  destruct (handleSettingsChange_effect pausedBreak emptyStorage
              DEFAULT_CONFIG DEFAULT_PREFERENCES eq_refl eq_refl)
    as (t' & ls' & H & _ & _ & Hr & _).
  destruct (handleSettingsChange_effect
              (resetTimeout break classicConfig pausedBreak) emptyStorage
              DEFAULT_CONFIG DEFAULT_PREFERENCES eq_refl eq_refl)
    as (t'' & ls'' & H' & _ & _ & Hr' & Hp' & _).
  exists t', ls'. split; [exact H |]. split; [exact Hr |].
  exists t'', ls''. exact (conj H' (conj Hp' Hr')).
Defined.

(** The mute button, on a store whose preferences can be read: the
    component's mute flag flips and nothing else in the component changes;
    the persisted sound preference becomes the opposite of the new flag, the
    other preferences are kept, and configuration, history and statistics
    read as before.  Pressing it twice brings the flag back. *)
Theorem handleMuteToggle_effect (t : Component) (ls : LocalStorage)
  (p : UserPreferences) :
  fst (getPreferences ls) = Ok p ->
  exists ls',
    handleMuteToggle t ls = (Ok (setIsMuted (negb (isMuted t)) t), ls') /\
    fst (getPreferences ls') =
      Ok (mkUserPreferences (theme p) (notifications p) (isMuted t)
            (autoStartBreaks p) (autoStartPomodoros p)) /\
    fst (getTimerConfig ls') = fst (getTimerConfig ls) /\
    fst (getSessions ls') = fst (getSessions ls) /\
    fst (getStatistics ls') = fst (getStatistics ls) /\
    exists ls'',
      handleMuteToggle (setIsMuted (negb (isMuted t)) t) ls' = (Ok t, ls'') /\
      fst (getPreferences ls'') =
        Ok (mkUserPreferences (theme p) (notifications p) (negb (isMuted t))
              (autoStartBreaks p) (autoStartPomodoros p)).
Proof.
  rewrite getPreferences_eq. cbn [fst]. intros Hp.
  destruct t as [c s st tn m sst to], ls as [lp lh lst lc].
  cbn [pomodoro_preferences] in Hp.
  assert (forall m' : bool,
            handleMuteToggle (mkComponent c s st tn m' sst to)
              (mkLocalStorage lp lh lst lc) =
            (Ok (mkComponent c s st tn (negb m') sst to),
             putItem PREFERENCES
               (Some (Doc (jsonOfPreferences
                  (mkUserPreferences (theme p) (notifications p) m'
                     (autoStartBreaks p) (autoStartPomodoros p)))))
               (initialized (mkLocalStorage lp lh lst lc)))) as Htoggle.
  { intros m'. unfold handleMuteToggle, bind.
    rewrite getPreferences_eq. cbn [pomodoro_preferences]. rewrite Hp.
    cbn. now rewrite negb_involutive. }
  eexists. split; [apply Htoggle |].
  rewrite !getPreferences_eq, !getTimerConfig_eq, !getSessions_eq,
    !getStatistics_eq. cbn.
  rewrite !readConfig_init, !readSessions_init, !readStatistics_init.
  repeat split.
  eexists. split.
  - unfold handleMuteToggle, bind. rewrite getPreferences_eq. cbn.
    rewrite !negb_involutive. reflexivity.
  - rewrite getPreferences_eq. reflexivity.
Qed.

Lemma handleMuteToggle_effect_witness :
  exists ls',
    handleMuteToggle pausedBreak autoStartOff =
      (Ok (setIsMuted true pausedBreak), ls') /\
    fst (getPreferences ls') =
      Ok (mkUserPreferences dark true false false false).
Proof.
  destruct (handleMuteToggle_effect pausedBreak autoStartOff
              (mkUserPreferences dark true true false false) eq_refl)
    as (ls' & H & Hp & _).
  exists ls'. exact (conj H Hp).
Defined.

(** *** Counting down *)

Lemma run_ticks_countdown tz (ticks : list (Z * string)) :
  forall (t : Component) (ls : LocalStorage),
    tickEnabled t = true ->
    Z.of_nat (List.length ticks) <= timeRemaining (state t) ->
    run tz (ticking ticks) t ls =
      (Ok (setState
             (fun prev =>
                mkTimerState (isRunning prev) (isPaused prev)
                  (currentPhase prev)
                  (timeRemaining prev - Z.of_nat (List.length ticks))
                  (completedSessions prev))
             t), ls).
Proof.
  induction ticks as [| [now uuid] ticks IH]; intros t ls He Hn.
  - unfold ticking, run, ret, setState.
    destruct t as [c s [r p ph tr cs] tn m sst to];
      cbn [state isRunning isPaused currentPhase timeRemaining
           completedSessions config stats isTransitioning isMuted
           sessionStartTime timeouts map List.length Z.of_nat].
    now rewrite Z.sub_0_r.
  - cbn [ticking map run List.length] in *. unfold bind, step, tick.
    rewrite He.
    destruct (Z.leb_spec (timeRemaining (state t)) 0) as [Hle | Hgt]; [lia |].
    cbn [ret fst snd]. fold (ticking ticks). rewrite IH.
    + unfold setState; cbn. do 4 f_equal. lia.
    + exact He.
    + cbn. lia.
Qed.

(** Start followed by [n] ticks, with no transition in progress and at
    least [n] seconds on the clock: the timer runs, is not paused, shows
    exactly [n] seconds less, carries the start time of the click, and
    neither the store nor anything else in the component has changed. *)
Theorem start_then_ticks tz (start : Z) (ticks : list (Z * string))
  (t : Component) (ls : LocalStorage) :
  isTransitioning t = false ->
  Z.of_nat (List.length ticks) <= timeRemaining (state t) ->
  run tz (Start start :: ticking ticks) t ls =
    (Ok {| config := config t;
           stats := stats t;
           state :=
             {| isRunning := true; isPaused := false;
                currentPhase := currentPhase (state t);
                timeRemaining :=
                  timeRemaining (state t) - Z.of_nat (List.length ticks);
                completedSessions := completedSessions (state t) |};
           isTransitioning := false;
           isMuted := isMuted t;
           sessionStartTime := Some start;
           timeouts := timeouts t |}, ls).
Proof.
  intros Htr Hn. cbn [run step]. unfold bind. cbn [ret].
  rewrite run_ticks_countdown.
  - unfold startTimer, setState, setSessionStartTime; cbn. now rewrite Htr.
  - unfold tickEnabled, startTimer; cbn. now rewrite Htr.
  - exact Hn.
Qed.

Lemma start_then_ticks_witness :
  exists t',
    run europeLondon
      (Start mondayNight ::
       ticking [(mondayNight + 1000, "a"%string); (mondayNight + 2000, "b"%string)])
      (resetTimeout focus classicConfig (runningFocus 37)) emptyStorage =
      (Ok t', emptyStorage) /\
    timeRemaining (state t') = 1498.
Proof.
  eexists. split.
  - apply (start_then_ticks europeLondon mondayNight
             [(mondayNight + 1000, "a"%string); (mondayNight + 2000, "b"%string)]
             (resetTimeout focus classicConfig (runningFocus 37)) emptyStorage);
      [reflexivity | vm_compute; discriminate].
  - reflexivity.
Defined.

(** The button labelled "Resume" does not resume.  On a timer that is
    running and paused the first button reads "Resume", a click on it
    leaves the component exactly as it is, and after any sequence of such
    clicks and interval ticks the countdown and the store are unchanged:
    only reset leads out of the pause. *)
Theorem resume_button_keeps_the_pause tz (now : Z) (cs : list Command)
  (t : Component) (ls : LocalStorage) :
  isRunning (state t) = true ->
  isPaused (state t) = true ->
  primaryButtonLabel t = "Resume"%string /\
  primaryButtonClick now t = t /\
  (Forall tickOrPause cs -> run tz cs t ls = (Ok t, ls)).
Proof.
  intros Hr Hp.
  assert (pauseTimer t = t) as Hpause.
  { destruct t as [c s [r p ph tr n] tn m sst to]; cbn in *. now subst. }
  unfold primaryButtonLabel, primaryButtonClick. rewrite Hr, Hp. cbn.
  repeat split; [exact Hpause |].
  induction 1 as [| c cs Hc _ IH]; [reflexivity |].
  cbn [run]. unfold bind.
  destruct c; cbn in Hc; try contradiction; cbn [step].
  - unfold tick, tickEnabled. rewrite Hr, Hp. cbn. exact IH.
  - cbn. rewrite Hpause. exact IH.
Qed.

Lemma resume_button_keeps_the_pause_witness :
  primaryButtonLabel pausedBreak = "Resume"%string /\
  run europeLondon [Pause; Tick mondayNight "x"; Pause] pausedBreak emptyStorage =
    (Ok pausedBreak, emptyStorage).
Proof.
  destruct (resume_button_keeps_the_pause europeLondon mondayNight
              [Pause; Tick mondayNight "x"%string; Pause] pausedBreak
              emptyStorage eq_refl eq_refl) as (Hl & _ & Hrun).
  split; [exact Hl |]. apply Hrun.
  repeat constructor.
Defined.

(** *** Bookkeeping of a mounted timer *)

Lemma readConfig_inRange (v : option (Item Json.Config)) (c : TimerConfig) :
  readConfig v = Ok c -> inRange c.
Proof.
  destruct v as [[[|a x]|j]|]; cbn; intros H; inversion H; subst;
    try (repeat split; vm_compute; discriminate).
  unfold inRange, clampedConfig;
    cbn [focusDuration breakDuration longBreakDuration sessionsUntilLongBreak].
  repeat split; try apply Qmax_floor_le. apply Z.le_max_l.
Qed.

Lemma getTimerConfig_inRange ls c ls' :
  getTimerConfig ls = (Ok c, ls') -> inRange c.
Proof.
  rewrite getTimerConfig_eq. intros H. inversion H.
  eapply readConfig_inRange; eauto.
Qed.

Lemma handleSettingsChange_keeps t ls t' ls' :
  handleSettingsChange t ls = (Ok t', ls') ->
  inRange (config t') /\
  isRunning (state t') = isRunning (state t) /\
  isTransitioning t' = isTransitioning t /\
  sessionStartTime t' = sessionStartTime t /\
  timeouts t' = timeouts t.
Proof.
  unfold handleSettingsChange. intros H. bind_inv H.
  apply ret_ok_inv in H as [<- _].
  apply getTimerConfig_inRange in H0.
  destruct (negb (isRunning (state t))); cbn; auto.
Qed.

Lemma mount_bookkeeping ls t ls' : mount ls = (Ok t, ls') -> bookkeeping t.
Proof.
  unfold mount. intros H. bind_inv H. apply ret_ok_inv in H as [<- _].
  match goal with
  | Hc : getTimerConfig _ = (Ok ?c, _) |- bookkeeping (mkComponent ?c _ _ _ _ _ _) =>
      apply getTimerConfig_inRange in Hc;
      split; [exact Hc | split; cbn; [auto | discriminate]]
  end.
Qed.

Section Bookkeeping.

Variable tz : TimeZone.

Lemma step_bookkeeping c t ls t' ls' :
  bookkeeping t -> step tz c t ls = (Ok t', ls') -> bookkeeping t'.
Proof.
  intros (Hc & Hs & Ht). destruct c; cbn [step]; intros H.
  - unfold tick in H.
    destruct (tickEnabled t);
      [destruct (timeRemaining (state t) <=? 0) |].
    + apply handlePhaseComplete_inv in H.
      destruct H as (Hc' & Htr & _ & _ & Hto & _).
      unfold bookkeeping. rewrite Hc', Htr, Hto.
      split; [exact Hc | split; [auto |]].
      intros _ E. apply app_eq_nil in E as [_ E]. discriminate.
    + apply ret_ok_inv in H as [<- _]. exact (conj Hc (conj Hs Ht)).
    + apply ret_ok_inv in H as [<- _]. exact (conj Hc (conj Hs Ht)).
  - apply ret_ok_inv in H as [<- _].
    split; [exact Hc | split; [discriminate | exact Ht]].
  - apply ret_ok_inv in H as [<- _]. exact (conj Hc (conj Hs Ht)).
  - apply ret_ok_inv in H as [<- _].
    split; [exact Hc | split; [auto |]].
    intros _ E. apply app_eq_nil in E as [_ E]. discriminate.
  - apply ret_ok_inv in H as [<- _]. unfold runTimeout.
    destruct (nth_error (timeouts t) i) as [[next count cfg | ph cfg] |];
      [| | exact (conj Hc (conj Hs Ht))].
    + unfold phaseTimeout.
      destruct next; cbn;
        (split; [exact Hc | split; [auto; discriminate | discriminate]]).
    + unfold resetTimeout.
      split; [exact Hc | split; [auto | discriminate]].
  - unfold handleMuteToggle in H. bind_inv H. apply ret_ok_inv in H as [<- _].
    exact (conj Hc (conj Hs Ht)).
  - apply handleSettingsChange_keeps in H as (Hc' & Hr & Htr & Hst & Hto).
    unfold bookkeeping. now rewrite Hr, Htr, Hst, Hto.
  - apply bind_ok_inv in H as (? & ? & _ & H).
    apply handleSettingsChange_keeps in H as (Hc' & Hr & Htr & Hst & Hto).
    unfold bookkeeping. now rewrite Hr, Htr, Hst, Hto.
  - apply bind_ok_inv in H as (? & ? & _ & H).
    apply handleSettingsChange_keeps in H as (Hc' & Hr & Htr & Hst & Hto).
    unfold bookkeeping. now rewrite Hr, Htr, Hst, Hto.
Qed.

Lemma run_bookkeeping cs : forall t ls t' ls',
  bookkeeping t -> run tz cs t ls = (Ok t', ls') -> bookkeeping t'.
Proof.
  induction cs as [| c cs IH]; intros t ls t' ls' Hb H; cbn [run] in H.
  - apply ret_ok_inv in H as [<- _]. assumption.
  - bind_inv H. eapply IH; [| eassumption]. eapply step_bookkeeping; eauto.
Qed.

Lemma session_bookkeeping cs ls0 t ls :
  session tz cs ls0 = (Ok t, ls) -> bookkeeping t.
Proof.
  unfold session. intros H. bind_inv H.
  eapply run_bookkeeping; [| eassumption]. eapply mount_bookkeeping; eauto.
Qed.

(** Whenever the interval of a mounted timer can fire, a session start
    time is set; so the tick that finds the countdown at 0, on a store
    whose history and statistics can be read, returns and appends exactly
    one record: the given id, the start time, the clock reading as end
    time, the phase that ended, completed, and the configured seconds of
    that phase as duration.  The statistics are updated with that record
    and mirrored in the component. *)
Theorem completed_phase_is_recorded cs ls0 t ls now uuid history st :
  session tz cs ls0 = (Ok t, ls) ->
  tickEnabled t = true ->
  timeRemaining (state t) <= 0 ->
  fst (getSessions ls) = Ok history ->
  fst (getStatistics ls) = Ok st ->
  exists start t1 ls1,
    sessionStartTime t = Some start /\
    tick tz now uuid t ls = (Ok t1, ls1) /\
    let record :=
      mkSessionInput start now (currentPhase (state t)) true
        (phaseSeconds (config t) (currentPhase (state t))) in
    fst (getSessions ls1) = Ok (history ++ [mkSessionData uuid record]) /\
    fst (getStatistics ls1) = Ok (updatedStatistics tz now record st) /\
    stats t1 = updatedStatistics tz now record st.
Proof.
  intros Hreach He Hz. rewrite getSessions_eq, getStatistics_eq. cbn [fst].
  intros Hh Hst.
  destruct (session_bookkeeping _ _ _ _ Hreach) as (_ & Hs & _).
  destruct (sessionStartTime t) as [start |] eqn:Est.
  2:{ unfold tickEnabled in He.
      destruct (Hs eq_refl) as [E | E]; rewrite E in He;
        [| rewrite andb_false_r in He]; discriminate. }
  exists start. unfold tick. rewrite He.
  destruct (Z.leb_spec (timeRemaining (state t)) 0) as [_ | Hgt]; [| lia].
  unfold handlePhaseComplete, saveCompletedSession, bind.
  cbn [sessionStartTime setIsTransitioning config state]. rewrite Est.
  destruct (saveSession_eq tz now uuid
              (mkSessionInput start now (currentPhase (state t)) true
                 (phaseSeconds (config t) (currentPhase (state t))))
              ls history st Hh Hst) as (ls' & -> & Hs' & Hst').
  rewrite getStatistics_eq, Hst'. cbn [readStatistics ret].
  do 2 eexists. split; [reflexivity |]. split; [reflexivity |].
  cbn zeta. rewrite getSessions_eq, getStatistics_eq.
  cbn [fst pomodoro_sessions pomodoro_statistics initialized].
  rewrite !readSessions_init, !readStatistics_init, Hs', Hst'. cbn.
  rewrite mergeStatistics_json. repeat split.
Qed.

(** A transition always ends: while the transition flag of a mounted
    timer is set a callback is pending, and whichever pending callback runs
    clears the flag. *)
Theorem transition_ends cs ls0 t ls :
  session tz cs ls0 = (Ok t, ls) ->
  isTransitioning t = true ->
  timeouts t <> [] /\
  forall i now,
    (i < List.length (timeouts t))%nat ->
    isTransitioning (runTimeout i now t) = false /\
    List.length (timeouts (runTimeout i now t)) =
      (List.length (timeouts t) - 1)%nat.
Proof.
  intros Hreach Htr.
  destruct (session_bookkeeping _ _ _ _ Hreach) as (_ & _ & Ht).
  split; [now apply Ht |]. intros i now Hi. unfold runTimeout.
  destruct (nth_error (timeouts t) i) as [cb |] eqn:E.
  2:{ apply nth_error_None in E. lia. }
  assert (List.length (timeouts (clearTimeoutAt i t)) =
          (List.length (timeouts t) - 1)%nat) as Hlen.
  { unfold clearTimeoutAt; cbn [timeouts].
    rewrite List.length_app, List.length_firstn, List.length_skipn. lia. }
  destruct cb as [next count cfg | ph cfg].
  - unfold phaseTimeout. destruct (negb (Phase_eqb next focus)); cbn;
      split; try reflexivity; exact Hlen.
  - unfold resetTimeout; cbn. split; [reflexivity | exact Hlen].
Qed.

End Bookkeeping.

Lemma completed_phase_is_recorded_witness :
  exists t ls,
    session europeLondon
      (Start 1730073900000 :: repeat (Tick mondayNight "id-0") 12)
      emptyStorage = (Ok t, ls) /\
    exists t1 ls1,
      tick europeLondon mondayNight "id-1" t ls = (Ok t1, ls1) /\
      fst (getSessions ls1) =
        Ok [mkSessionData "id-1"
              (mkSessionInput 1730073900000 mondayNight focus true 12)] /\
      Stats.totalFocusTime (stats t1) = 12.
Proof.
  do 2 eexists. split; [vm_compute; reflexivity |].
  match goal with
  | |- exists t1 ls1, tick _ _ _ ?t ?ls = _ /\ _ =>
      destruct (completed_phase_is_recorded europeLondon
                  (Start 1730073900000 :: repeat (Tick mondayNight "id-0") 12)
                  emptyStorage t ls mondayNight "id-1" [] DEFAULT_STATISTICS
                  eq_refl eq_refl ltac:(cbn; lia) eq_refl eq_refl)
        as (start & t1 & ls1 & Hstart & Htick & Hhistory & _ & Hstats)
  end.
  cbn in Hstart. injection Hstart as <-.
  exists t1, ls1. split; [exact Htick |]. split; [exact Hhistory |].
  rewrite Hstats. reflexivity.
Defined.

Lemma transition_ends_witness :
  exists t ls,
    session europeLondon
      (Start 1730073900000 ::
       repeat (Tick mondayNight "id-0") 12 ++ [Tick mondayNight "id-1"])
      emptyStorage = (Ok t, ls) /\
    isTransitioning t = true /\
    isTransitioning (runTimeout 0 (mondayNight + 500) t) = false.
Proof.
  eassert (session europeLondon
             (Start 1730073900000 ::
              repeat (Tick mondayNight "id-0") 12 ++ [Tick mondayNight "id-1"])
             emptyStorage = _) as Hreach by (vm_compute; reflexivity).
  do 2 eexists. split; [exact Hreach |]. split; [reflexivity |].
  pose proof (transition_ends _ _ _ _ _ Hreach eq_refl) as [_ Hends].
  exact (proj1 (Hends 0%nat (mondayNight + 500) ltac:(cbn; lia))).
Defined.

(** *** The progress ring *)

Lemma phaseSeconds_at_least_6 (c : TimerConfig) (ph : Phase) :
  inRange c -> 6 <= phaseSeconds c ph.
Proof.
  intros (Hf & Hb & Hl & _). unfold phaseSeconds, Math_round.
  change 6 with (Qfloor 6). apply Qfloor_resp_le.
  destruct ph; cbn; lra.
Qed.

Lemma elapsed_share (total remaining : Z) :
  0 < total ->
  let x := (inject_Z (total - remaining) / inject_Z total)%Q in
  (remaining <= total -> (0 <= x)%Q) /\
  (0 <= remaining -> (x <= 1)%Q) /\
  (total <= remaining -> (x <= 0)%Q) /\
  (remaining = 0 -> (x == 1)%Q).
Proof.
  intros Ht. cbn zeta.
  assert (0 < inject_Z total)%Q as Hb
    by (change 0%Q with (inject_Z 0); now rewrite <- Zlt_Qlt).
  repeat split.
  - intros H. apply Qle_shift_div_l; [exact Hb |].
    rewrite Qmult_0_l. change 0%Q with (inject_Z 0).
    rewrite <- Zle_Qle. lia.
  - intros H. apply Qle_shift_div_r; [exact Hb |].
    rewrite Qmult_1_l, <- Zle_Qle. lia.
  - intros H. apply Qle_shift_div_r; [exact Hb |].
    rewrite Qmult_0_l. change 0%Q with (inject_Z 0).
    rewrite <- Zle_Qle. lia.
  - intros ->. rewrite Z.sub_0_r. unfold Qdiv. apply Qmult_inv_r.
    intros E. rewrite E in Hb. now apply Qlt_irrefl in Hb.
Qed.

(** In every state a mounted timer can reach, the current phase lasts at
    least 6 seconds, so the quotient of [getProgress] is defined, and the
    progress lies between 0 and 100: it is 100 when the countdown is at 0,
    it is 0 when the countdown shows the full phase or more (as after a
    settings change during an idle break), and in between it is the elapsed
    share of the phase in percent. *)
Theorem getProgress_range tz cs ls0 t ls :
  session tz cs ls0 = (Ok t, ls) ->
  let total := phaseSeconds (config t) (currentPhase (state t)) in
  6 <= total /\
  (0 <= getProgress t)%Q /\
  (getProgress t <= 100)%Q /\
  (timeRemaining (state t) = 0 -> (getProgress t == 100)%Q) /\
  (total <= timeRemaining (state t) -> (getProgress t == 0)%Q) /\
  (timeRemaining (state t) <= total ->
   (getProgress t ==
    inject_Z (total - timeRemaining (state t)) / inject_Z total * 100)%Q).
Proof.
  intros Hreach. cbn zeta.
  destruct (session_bookkeeping _ _ _ _ _ Hreach) as (Hc & _).
  destruct (session_invariant _ _ _ _ _ Hreach) as (_ & Hr & _).
  pose proof (phaseSeconds_at_least_6 _ (currentPhase (state t)) Hc) as H6.
  split; [exact H6 |].
  unfold getProgress.
  set (total := phaseSeconds (config t) (currentPhase (state t))) in *.
  destruct (elapsed_share total (timeRemaining (state t)) ltac:(lia))
    as (Hpos & Hle1 & Hneg & Hone).
  set (x := (inject_Z (total - timeRemaining (state t)) / inject_Z total)%Q)
    in *.
  specialize (Hle1 Hr).
  destruct (Q.max_spec (x * 100) 0) as [[Hlt Hmax] | [Hge Hmax]];
    destruct (Q.min_spec (Qmax (x * 100) 0) 100) as [[Hlt' Hmin] | [Hge' Hmin]];
    rewrite Hmin; rewrite ?Hmax in *;
    (split; [lra | split; [lra | split; [| split]]]);
    intros E;
    try (specialize (Hone E); lra);
    try (specialize (Hneg E); lra);
    try (specialize (Hpos E); lra).
Qed.

Lemma getProgress_range_witness :
  exists t ls,
    session europeLondon
      (Start 1730073900000 :: repeat (Tick mondayNight "id-0") 3)
      emptyStorage = (Ok t, ls) /\
    timeRemaining (state t) = 9 /\
    (getProgress t == 25)%Q.
Proof.
  do 2 eexists. split; [vm_compute; reflexivity |]. split; [reflexivity |].
  match goal with
  | |- (getProgress ?t == _)%Q =>
      pose proof (getProgress_range europeLondon
                    (Start 1730073900000 :: repeat (Tick mondayNight "id-0") 3)
                    emptyStorage t _ eq_refl)
        as (_ & _ & _ & _ & _ & Hshare)
  end.
  apply (Qeq_trans _ _ _ (Hshare ltac:(vm_compute; discriminate))).
  vm_compute. reflexivity.
Defined.

(** *** The clock face and the totals *)

Lemma checked_below (P : Z -> bool) (n : Z) :
  forallb (fun k => P (Z.of_nat k)) (seq 0 (Z.to_nat n)) = true ->
  forall z, 0 <= z < n -> P z = true.
Proof.
  intros H z Hz. rewrite forallb_forall in H.
  rewrite <- (Z2Nat.id z) by lia. apply H. apply in_seq. lia.
Qed.

Lemma two_digits (k : Z) :
  0 <= k < 60 ->
  padStart 2 "0" (toString k) =
  String (digit (k / 10)) (String (digit (k mod 10)) EmptyString).
Proof.
  intros H. apply String.eqb_eq.
  apply (checked_below
           (fun k => String.eqb (padStart 2 "0" (toString k))
                       (String (digit (k / 10))
                          (String (digit (k mod 10)) EmptyString)))
           60); [vm_compute; reflexivity | exact H].
Qed.

(** [formatTime] on a count of seconds that is not negative: the part
    after the colon always has exactly two digits, those of the seconds
    within the minute; and below 100 minutes the whole text is "MM:SS",
    five characters, digit by digit. *)
Theorem formatTime_clock_face (seconds : Z) :
  0 <= seconds ->
  formatTime seconds =
    (padStart 2 "0" (toString (seconds / 60)) ++ ":" ++
     String (digit (seconds mod 60 / 10))
       (String (digit (seconds mod 10)) EmptyString))%string /\
  (seconds < 6000 -> formatTime seconds = clockFace seconds).
Proof.
  intros H. split.
  - unfold formatTime. rewrite Z.rem_mod_nonneg by lia.
    rewrite (two_digits (seconds mod 60)) by (apply Z.mod_pos_bound; lia).
    replace (seconds mod 60 mod 10) with (seconds mod 10); [reflexivity |].
    pose proof (Z.div_mod seconds 60 ltac:(lia)).
    pose proof (Z.div_mod (seconds mod 60) 10 ltac:(lia)).
    pose proof (Z.mod_pos_bound (seconds mod 60) 10 ltac:(lia)).
    symmetry. apply Z.mod_unique
      with (q := 6 * (seconds / 60) + seconds mod 60 / 10); lia.
  - intros Hlt. apply String.eqb_eq.
    apply (checked_below
             (fun s => String.eqb (formatTime s) (clockFace s)) 6000);
      [vm_compute; reflexivity | lia].
Qed.

Lemma formatTime_clock_face_witness :
  formatTime 1498 = "24:58"%string /\ formatTime 0 = "00:00"%string.
Proof.
  split.
  - exact (proj2 (formatTime_clock_face 1498 ltac:(lia)) ltac:(lia)).
  - exact (proj2 (formatTime_clock_face 0 ltac:(lia)) ltac:(lia)).
Defined.

(** [formatDuration] on a count of seconds that is not negative drops the
    seconds (two totals within the same minute read alike); below one hour
    it prints the minutes alone, from one hour on the hours and the minutes
    within the hour, which are less than 60. *)
Theorem formatDuration_minutes (seconds : Z) :
  0 <= seconds ->
  formatDuration seconds = formatDuration (60 * (seconds / 60)) /\
  (seconds < 3600 ->
   formatDuration seconds = (toString (seconds / 60) ++ "m")%string) /\
  (3600 <= seconds ->
   formatDuration seconds =
     (toString (seconds / 3600) ++ "h " ++
      toString (seconds mod 3600 / 60) ++ "m")%string /\
   0 <= seconds mod 3600 / 60 < 60).
Proof.
  intros H.
  assert (forall s, 0 <= s ->
            formatDuration s =
            if 0 <? s / 3600
            then (toString (s / 3600) ++ "h " ++
                  toString (s mod 3600 / 60) ++ "m")%string
            else (toString (s / 60) ++ "m")%string) as Hform.
  { intros s Hs. unfold formatDuration. rewrite Z.rem_mod_nonneg by lia.
    destruct (Z.ltb_spec 0 (s / 3600)) as [Hh | Hh]; [reflexivity |].
    assert (s / 3600 = 0) as E
      by (pose proof (Z.div_pos s 3600 Hs ltac:(lia)); lia).
    apply Z.div_small_iff in E; [| lia].
    rewrite Z.mod_small by lia. reflexivity. }
  pose proof (Z.div_mod seconds 3600 ltac:(lia)) as D1.
  pose proof (Z.mod_pos_bound seconds 3600 ltac:(lia)) as B1.
  pose proof (Z.div_mod (seconds mod 3600) 60 ltac:(lia)) as D2.
  pose proof (Z.mod_pos_bound (seconds mod 3600) 60 ltac:(lia)) as B2.
  assert (0 <= seconds mod 3600 / 60 < 60) as Ba
    by (split; [apply Z.div_pos; lia | apply Z.div_lt_upper_bound; lia]).
  assert (seconds / 60 = 60 * (seconds / 3600) + seconds mod 3600 / 60) as Es.
  { symmetry. apply Z.div_unique with (r := seconds mod 3600 mod 60); lia. }
  assert (60 * (seconds / 60) / 3600 = seconds / 3600) as Eh.
  { symmetry.
    apply Z.div_unique with (r := 60 * (seconds mod 3600 / 60)); lia. }
  assert (60 * (seconds / 60) / 60 = seconds / 60) as Em
    by (rewrite Z.mul_comm; apply Z.div_mul; lia).
  assert ((60 * (seconds / 60)) mod 3600 / 60 = seconds mod 3600 / 60) as Er.
  { replace ((60 * (seconds / 60)) mod 3600)
      with (60 * (seconds mod 3600 / 60)).
    - rewrite Z.mul_comm. apply Z.div_mul. lia.
    - apply Z.mod_unique with (q := seconds / 3600); lia. }
  split; [| split].
  - rewrite (Hform seconds H), (Hform (60 * (seconds / 60))), Eh, Em, Er.
    + reflexivity.
    + pose proof (Z.div_pos seconds 60 H ltac:(lia)). lia.
  - intros Hlt. rewrite (Hform seconds H).
    rewrite (Z.div_small seconds 3600) by lia. reflexivity.
  - intros Hge. rewrite (Hform seconds H).
    assert (1 <= seconds / 3600) as Hh by (apply Z.div_le_lower_bound; lia).
    destruct (Z.ltb_spec 0 (seconds / 3600)); [| lia].
    split; [reflexivity |].
    pose proof (Z.mod_pos_bound seconds 3600 ltac:(lia)).
    split; [apply Z.div_pos; lia | apply Z.div_lt_upper_bound; lia].
Qed.

Lemma formatDuration_minutes_witness :
  formatDuration 9059 = "2h 30m"%string /\
  formatDuration 9059 = formatDuration 9000 /\
  formatDuration 59 = "0m"%string.
Proof.
  pose proof (formatDuration_minutes 9059 ltac:(lia)) as (Hd & _ & Hh).
  pose proof (formatDuration_minutes 59 ltac:(lia)) as (_ & Hm & _).
  split; [exact (proj1 (Hh ltac:(lia))) |].
  split; [exact Hd | exact (Hm ltac:(lia))].
Defined.

(** *** The history and the statistics *)

Lemma focusSeconds_app (l : list SessionData) (r : SessionData) :
  focusSeconds (l ++ [r]) =
  focusSeconds l + (if Phase_eqb (phase r) focus then duration r else 0).
Proof.
  induction l as [| a l IH]; cbn.
  - destruct (Phase_eqb (phase r) focus); lia.
  - fold (focusSeconds (l ++ [r])). fold (focusSeconds l). rewrite IH.
    destruct (Phase_eqb (phase a) focus); lia.
Qed.

Lemma breakSeconds_app (l : list SessionData) (r : SessionData) :
  breakSeconds (l ++ [r]) =
  breakSeconds l + (if Phase_eqb (phase r) focus then 0 else duration r).
Proof.
  induction l as [| a l IH]; cbn.
  - destruct (Phase_eqb (phase r) focus); lia.
  - fold (breakSeconds (l ++ [r])). fold (breakSeconds l). rewrite IH.
    destruct (Phase_eqb (phase a) focus); lia.
Qed.

Lemma sameLedger_initialized (ls : LocalStorage) : sameLedger ls (initialized ls).
Proof.
  destruct ls; split; cbn; [apply readSessions_init | apply readStatistics_init].
Qed.

Lemma sameLedger_trans (ls1 ls2 ls3 : LocalStorage) :
  sameLedger ls1 ls2 -> sameLedger ls2 ls3 -> sameLedger ls1 ls3.
Proof. intros [H1 H2] [H3 H4]. split; congruence. Qed.

Lemma getPreferences_frame ls r ls' :
  getPreferences ls = (r, ls') -> sameLedger ls ls'.
Proof.
  rewrite getPreferences_eq. intros H. inversion H.
  apply sameLedger_initialized.
Qed.

Lemma getTimerConfig_frame ls r ls' :
  getTimerConfig ls = (r, ls') -> sameLedger ls ls'.
Proof.
  rewrite getTimerConfig_eq. intros H. inversion H.
  apply sameLedger_initialized.
Qed.

Lemma getStatistics_frame ls r ls' :
  getStatistics ls = (r, ls') -> sameLedger ls ls'.
Proof.
  rewrite getStatistics_eq. intros H. inversion H.
  apply sameLedger_initialized.
Qed.

Lemma savePreferences_frame p ls r ls' :
  savePreferences p ls = (r, ls') -> sameLedger ls ls'.
Proof.
  unfold_store. intros H. inversion H. destruct ls; split; reflexivity.
Qed.

Lemma saveTimerConfig_frame c ls r ls' :
  saveTimerConfig c ls = (r, ls') -> sameLedger ls ls'.
Proof.
  unfold_store. intros H. inversion H. destruct ls; split; reflexivity.
Qed.

Lemma handleMuteToggle_frame t ls t' ls' :
  handleMuteToggle t ls = (Ok t', ls') -> stats t' = stats t /\ sameLedger ls ls'.
Proof.
  unfold handleMuteToggle. intros H. bind_inv H.
  apply ret_ok_inv in H as [<- <-]. split; [reflexivity |].
  eapply sameLedger_trans;
    [eapply getPreferences_frame | eapply savePreferences_frame]; eassumption.
Qed.

Lemma handleSettingsChange_frame t ls t' ls' :
  handleSettingsChange t ls = (Ok t', ls') ->
  stats t' = stats t /\ sameLedger ls ls'.
Proof.
  unfold handleSettingsChange. intros H. bind_inv H.
  apply ret_ok_inv in H as [<- <-]. split.
  - destruct (negb (isRunning (state t))); reflexivity.
  - eapply sameLedger_trans;
      [eapply getTimerConfig_frame | eapply getPreferences_frame]; eassumption.
Qed.

Lemma runTimeout_stats i now t : stats (runTimeout i now t) = stats t.
Proof.
  unfold runTimeout.
  destruct (nth_error (timeouts t) i) as [[next count cfg | ph cfg] |];
    [| reflexivity | reflexivity].
  unfold phaseTimeout. destruct (negb (Phase_eqb next focus)); reflexivity.
Qed.

Lemma ledger_frame h0 st0 t ls t' ls' :
  ledger h0 st0 t ls -> stats t' = stats t -> sameLedger ls ls' ->
  ledger h0 st0 t' ls'.
Proof.
  intros (added & Hh & Hst & Hrest) Hs [Fh Fst].
  exists added. rewrite Hs, Fh, Fst. auto.
Qed.

Lemma getStatistics_ok ls st ls' :
  getStatistics ls = (Ok st, ls') ->
  readStatistics (pomodoro_statistics ls) = Ok st /\ sameLedger ls ls'.
Proof.
  intros H. split; [| eapply getStatistics_frame; eassumption].
  rewrite getStatistics_eq in H. now inversion H.
Qed.

Lemma mount_ledger ls h0 st0 t ls' :
  readSessions (pomodoro_sessions ls) = Ok h0 ->
  readStatistics (pomodoro_statistics ls) = Ok st0 ->
  mount ls = (Ok t, ls') -> ledger h0 st0 t ls'.
Proof.
  intros Hh Hst H. unfold mount in H. bind_inv H.
  apply ret_ok_inv in H as [<- <-].
  repeat match goal with
  | H : getTimerConfig _ = _ |- _ => apply getTimerConfig_frame in H as [? ?]
  | H : getPreferences _ = _ |- _ => apply getPreferences_frame in H as [? ?]
  | H : getStatistics _ = _ |- _ => apply getStatistics_ok in H as (? & ? & ?)
  end.
  exists []. cbn [stats]. rewrite app_nil_r.
  match goal with
  | |- _ /\ _ = Ok ?s /\ _ => assert (s = st0) as -> by congruence
  end.
  repeat split; try congruence; try (cbn; lia). constructor.
Qed.

Section Ledger.

Variable tz : TimeZone.
Variable h0 : list SessionData.
Variable st0 : Stats.Statistics.

Lemma handlePhaseComplete_ledger now uuid t ls t' ls' :
  inRange (config t) -> ledger h0 st0 t ls ->
  handlePhaseComplete tz now uuid t ls = (Ok t', ls') -> ledger h0 st0 t' ls'.
Proof.
  intros Hc (added & Hh & Hst & Hf & Hb & Hn & Hall).
  unfold handlePhaseComplete, saveCompletedSession, bind.
  cbn [sessionStartTime setIsTransitioning config state].
  destruct (sessionStartTime t) as [start |].
  - destruct (saveSession_eq tz now uuid
                (mkSessionInput start now (currentPhase (state t)) true
                   (phaseSeconds (config t) (currentPhase (state t))))
                ls _ _ Hh Hst) as (ls1 & -> & Hs' & Hst').
    rewrite getStatistics_eq, Hst'. cbn [readStatistics ret].
    intros H. inversion H; subst. clear H.
    exists (added ++
            [mkSessionData uuid
               (mkSessionInput start now (currentPhase (state t)) true
                  (phaseSeconds (config t) (currentPhase (state t))))]).
    cbn [pomodoro_sessions pomodoro_statistics initialized stats setTimeout
         setState setStats].
    rewrite !readSessions_init, !readStatistics_init, Hs', Hst'.
    rewrite mergeStatistics_json, focusSeconds_app, breakSeconds_app,
      List.length_app, app_assoc.
    cbn [readSessions readStatistics updatedStatistics Stats.totalFocusTime
         Stats.totalBreakTime Stats.completedSessions phase duration completed
         session_fields List.length].
    rewrite mergeStatistics_json.
    cbn [Stats.totalFocusTime Stats.totalBreakTime Stats.completedSessions].
    repeat split.
    + destruct (Phase_eqb (currentPhase (state t)) focus); lia.
    + destruct (Phase_eqb (currentPhase (state t)) focus); lia.
    + lia.
    + apply Forall_app. split; [exact Hall |].
      constructor; [| constructor]. split; [reflexivity |].
      apply phaseSeconds_at_least_6, Hc.
  - cbn [ret]. intros H. inversion H; subst.
    exists added. cbn. auto 10.
Qed.

Lemma step_ledger c t ls t' ls' :
  inRange (config t) -> ledger h0 st0 t ls ->
  step tz c t ls = (Ok t', ls') -> ledger h0 st0 t' ls'.
Proof.
  intros Hc Hl. destruct c; cbn [step]; intros H.
  - unfold tick in H.
    destruct (tickEnabled t);
      [destruct (timeRemaining (state t) <=? 0) |].
    + eapply handlePhaseComplete_ledger; eauto.
    + apply ret_ok_inv in H as [<- <-]. exact Hl.
    + apply ret_ok_inv in H as [<- <-]. exact Hl.
  - apply ret_ok_inv in H as [<- <-]. exact Hl.
  - apply ret_ok_inv in H as [<- <-]. exact Hl.
  - apply ret_ok_inv in H as [<- <-]. exact Hl.
  - apply ret_ok_inv in H as [<- <-].
    eapply ledger_frame; [exact Hl | apply runTimeout_stats | split; reflexivity].
  - apply handleMuteToggle_frame in H as [Hs Hf].
    eapply ledger_frame; eauto.
  - apply handleSettingsChange_frame in H as [Hs Hf].
    eapply ledger_frame; eauto.
  - apply bind_ok_inv in H as (? & ls1 & Hsave & H).
    apply saveTimerConfig_frame in Hsave.
    apply handleSettingsChange_frame in H as [Hs Hf].
    eapply ledger_frame; [exact Hl | exact Hs |].
    eapply sameLedger_trans; eauto.
  - apply bind_ok_inv in H as (? & ls1 & Hsave & H).
    apply savePreferences_frame in Hsave.
    apply handleSettingsChange_frame in H as [Hs Hf].
    eapply ledger_frame; [exact Hl | exact Hs |].
    eapply sameLedger_trans; eauto.
Qed.

Lemma run_ledger cs : forall t ls t' ls',
  bookkeeping t -> ledger h0 st0 t ls ->
  run tz cs t ls = (Ok t', ls') -> ledger h0 st0 t' ls'.
Proof.
  induction cs as [| c cs IH]; intros t ls t' ls' Hb Hl H; cbn [run] in H.
  - apply ret_ok_inv in H as [<- <-]. assumption.
  - bind_inv H. eapply IH; [| | eassumption].
    + eapply step_bookkeeping; eauto.
    + eapply step_ledger; eauto. apply Hb.
Qed.

(** Whatever a mounted timer is made to do, the history only grows, by
    records that are completed and last at least 6 seconds; the statistics
    of the store are the ones the component shows; and the totals have
    grown by exactly the records added: the focus total by the seconds of
    the added focus records, the break total by the seconds of the others,
    the number of completed sessions by their number. *)
Theorem history_matches_statistics cs ls0 t ls :
  fst (getSessions ls0) = Ok h0 ->
  fst (getStatistics ls0) = Ok st0 ->
  session tz cs ls0 = (Ok t, ls) ->
  exists added,
    fst (getSessions ls) = Ok (h0 ++ added) /\
    fst (getStatistics ls) = Ok (stats t) /\
    Stats.totalFocusTime (stats t) =
      Stats.totalFocusTime st0 + focusSeconds added /\
    Stats.totalBreakTime (stats t) =
      Stats.totalBreakTime st0 + breakSeconds added /\
    Stats.completedSessions (stats t) =
      Stats.completedSessions st0 + Z.of_nat (List.length added) /\
    Forall timerRecord added.
Proof.
  rewrite !getSessions_eq, !getStatistics_eq. cbn [fst].
  intros Hh Hst. unfold session. intros H. bind_inv H.
  eapply run_ledger; [| | eassumption].
  - eapply mount_bookkeeping; eauto.
  - eapply mount_ledger; eauto.
Qed.

End Ledger.

Lemma history_matches_statistics_witness :
  exists t ls added,
    session europeLondon focusThenBreak emptyStorage = (Ok t, ls) /\
    fst (getSessions ls) = Ok added /\
    List.length added = 2%nat /\
    Stats.totalFocusTime (stats t) = 12 /\
    Stats.totalBreakTime (stats t) = 6 /\
    Stats.completedSessions (stats t) = 2.
Proof.
  eassert (session europeLondon focusThenBreak emptyStorage = _) as Hreach
    by (vm_compute; reflexivity).
  destruct (history_matches_statistics europeLondon [] DEFAULT_STATISTICS
              focusThenBreak emptyStorage _ _ eq_refl eq_refl Hreach)
    as (added & Hh & _ & Hf & Hb & Hn & _).
  do 2 eexists. exists added. split; [exact Hreach |]. split; [exact Hh |].
  vm_compute in Hh. injection Hh as <-.
  split; [reflexivity |]. split; [exact Hf |]. split; [exact Hb | exact Hn].
Defined.
